(** * A draggable bottom sheet and its scroll lock

    Shallow embedding of the [BottomSheet] component (the pointer-event
    variant, which wires in [usePreventScroll]) and of
    [use-prevent-scroll.ts].

    JavaScript numbers are IEEE 754 binary64 values: they are modelled by the
    kernel's primitive [float], so [wH * 0.45] below is the very product the
    program computes, rounding included.  Counters that are only ever
    incremented and decremented by one are integers ([Z]).  React state is
    passed explicitly: a handler is a function of the values its closure
    captured (the render that created it) and of the mutable objects it
    shares with every other render (the [useRef] cell and the DOM node). *)

From Stdlib Require Import ZArith Bool List String Ascii Lia Uint63 Floats.
Import ListNotations.

Set Warnings "-inexact-float,-register-all".

(** ** JavaScript numbers *)

Module Js.

Local Open Scope float_scope.

(** [a >= b] and [a > b]; like [<=] and [<] they are false as soon as one
    side is NaN, so they are the flipped comparisons and not negations. *)
Definition ge (a b : float) : bool := b <=? a.
Definition gt (a b : float) : bool := b <? a.

(** One step of the loop of [Math.max]: [+0] counts as larger than [-0]. *)
Definition max_step (highest n : float) : float :=
  if is_zero n && negb (get_sign n) && is_zero highest && get_sign highest
  then n
  else if highest <? n then n else highest.

(** [Math.max(a, b)]: NaN if an argument is NaN, otherwise the larger one,
    starting from minus infinity. *)
Definition Math_max (a b : float) : float :=
  if is_nan a || is_nan b then nan
  else max_step (max_step neg_infinity a) b.

(** The number whose value is the integer [n] (below 2^63): what a DOM
    attribute of type [long], such as [window.innerHeight], reads as. *)
Definition px (n : Z) : float := of_uint63 (Uint63.of_Z n).

End Js.

(** ** The drag controller *)

Module BottomSheet.

Local Open Scope float_scope.
Import Js.

Definition between (min max value : float) : bool :=
  ge value min && (value <=? max).

Definition MIN_BS_HEIGHT : float := 24.

Definition withMinHeightLimit (val : float) : float :=
  Math_max MIN_BS_HEIGHT val.

(** [DragRef]: the content of the [useRef] cell. *)
Record DragRef : Set := mkDragRef {
  last : float;
  drag : float;
  from : float
}.

(** The two style properties of the sheet element that the handlers write:
    the custom property [--bs-duration] and [height], a length in px. *)
Record Style : Set := mkStyle {
  bsDuration : string;
  height : float
}.

(** What a handler closes over: the [useState] values of one render. *)
Record Render : Set := mkRender {
  isDragging : bool;
  blockHeight : float
}.

(** The mutable objects every render shares. *)
Record Refs : Set := mkRefs {
  dragState : DragRef;
  style : Style
}.

Definition updateDragState (d : DragRef) (to : float) : DragRef :=
  let deltaY := last d - to in
  {| last := to; drag := drag d - deltaY; from := from d |}.

(** [animateTo], with [wH] the value of [window.innerHeight]. *)
Definition animateTo (wH : float) (r : Render) (d : DragRef) : float :=
  let up := gt (from d - last d) 0 in
  let isTop := between (wH * 0.45) (wH * 0.9) (blockHeight r - drag d) in
  let isMiddle := between (wH * 0.05) (wH * 0.45) (blockHeight r - drag d) in
  if isMiddle && up then wH * 0.5
  else if isTop && up then wH * 0.9
  else if isTop && negb up then wH * 0.5
  else 0.

Definition handleOnMove (r : Render) (clientY : float) (m : Refs) : Refs :=
  if negb (isDragging r) then m
  else
    let d := updateDragState (dragState m) clientY in
    {| dragState := d;
       style := {| bsDuration := "0s";
                   height := withMinHeightLimit (blockHeight r - drag d) |} |}.

(** What a handler leaves behind: the shared objects, the state updates it
    requested, and whether it called [preventDefault]. *)
Record Outcome : Set := mkOutcome {
  refs' : Refs;
  setDragging : option bool;
  setBlockHeight : option float;
  prevented : bool
}.

Definition handleMouseDown (clientY : float) (m : Refs) : Outcome :=
  let d := dragState m in
  {| refs' := {| dragState := {| last := clientY; drag := drag d; from := clientY |};
                 style := style m |};
     setDragging := Some true;
     setBlockHeight := None;
     prevented := true |}.

Definition handleMouseUp (wH : float) (r : Render) (m : Refs) : Outcome :=
  let d := dragState m in
  let to := animateTo wH r d in
  {| refs' := {| dragState := {| last := last d; drag := 0; from := from d |};
                 style := {| bsDuration := "0.35s";
                             height := withMinHeightLimit to |} |};
     setDragging := Some false;
     setBlockHeight := Some (withMinHeightLimit to);
     prevented := false |}.

(** The mounted component.  [state] is the current [useState] pair;
    [listeners] is the render whose [handleOnMove] and [handleMouseUp] are
    registered on the document: the effect that registers them has
    [[isDragging]] as its dependencies, so it runs again only when
    [isDragging] changes. *)
Record Component : Set := mkComponent {
  state : Render;
  listeners : Render;
  refs : Refs
}.

Definition orElse {A : Type} (o : option A) (a : A) : A :=
  match o with Some x => x | None => a end.

(** Apply a handler's state updates, render, and run the effect if its
    dependency changed. *)
Definition commit (c : Component) (o : Outcome) : Component :=
  let st := {| isDragging := orElse (setDragging o) (isDragging (state c));
               blockHeight := orElse (setBlockHeight o) (blockHeight (state c)) |} in
  {| state := st;
     listeners := if Bool.eqb (isDragging st) (isDragging (state c))
                  then listeners c else st;
     refs := refs' o |}.

Inductive Event : Set :=
| PointerDown (clientY : float)      (* on the drag handle *)
| PointerMove (clientY : float)      (* anywhere on the document *)
| PointerUp (innerHeight : float).   (* anywhere on the document *)

Definition dispatch (e : Event) (c : Component) : Component :=
  match e with
  | PointerDown y => commit c (handleMouseDown y (refs c))
  | PointerMove y =>
      commit c {| refs' := handleOnMove (listeners c) y (refs c);
                  setDragging := None; setBlockHeight := None;
                  prevented := false |}
  | PointerUp wH => commit c (handleMouseUp wH (listeners c) (refs c))
  end.

Definition run (evs : list Event) (c : Component) : Component :=
  fold_left (fun c e => dispatch e c) evs c.

(** The component after mounting: the first render has
    [blockHeight = 0]; the first effect stores the measured height of the
    element when there is one ([rect = Some _]), the second registers the
    handlers of that first render. *)
Definition mount (rect : option float) : Component :=
  let first := {| isDragging := false; blockHeight := 0 |} in
  {| state := {| isDragging := false; blockHeight := orElse rect 0 |};
     listeners := first;
     refs := {| dragState := {| last := 0; drag := 0; from := 0 |};
                style := {| bsDuration := ""; height := MIN_BS_HEIGHT |} |} |}.

(** The registered handlers belong to a render with the current
    [isDragging], and to the current render while a drag is active. *)
Definition listeners_current (c : Component) : Prop :=
  isDragging (listeners c) = isDragging (state c)
  /\ (isDragging (state c) = true -> listeners c = state c).

(** The snap table in the words of the specification. *)
Definition snapTable (wH : float) (middle top up : bool) : float :=
  if middle && up then 0.5 * wH
  else if top && up then 0.9 * wH
  else if top && negb up then 0.5 * wH
  else 0.

End BottomSheet.

(** ** The scroll lock *)

Module PreventScroll.

Local Open Scope string_scope.
Local Open Scope float_scope.
Import Js.

(** *** Platform detection *)

(** [window.navigator]: the experimental [userAgentData.platform] when the
    browser has it, [platform], and [maxTouchPoints]. *)
Record Navigator : Set := mkNavigator {
  userAgentDataPlatform : option string;
  platform : string;
  maxTouchPoints : Z
}.

(** [a || b] on strings, where [a] may be undefined: the empty string is
    falsy. *)
Definition orString (a : option string) (b : string) : string :=
  match a with
  | Some (String c s) => String c s
  | _ => b
  end.

(** [testPlatform(/^re/)]; [nav = None] stands for a missing [window] or a
    null [window.navigator]. *)
Definition testPlatform (re : string) (nav : option Navigator) : bool :=
  match nav with
  | Some n => String.prefix re (orString (userAgentDataPlatform n) (platform n))
  | None => false
  end.

Definition isMac := testPlatform "Mac".
Definition isIPhone := testPlatform "iPhone".
Definition isIPad (nav : option Navigator) : bool :=
  testPlatform "iPad" nav
  || (isMac nav
      && match nav with Some n => (1 <? maxTouchPoints n)%Z | None => false end).
Definition isIOS (nav : option Navigator) : bool := isIPhone nav || isIPad nav.

(** *** Elements *)

Inductive ElementClass : Set :=
| HTMLInputElement (type : string)
| HTMLTextAreaElement
| HTMLElement            (* any other HTML element *)
| OtherElement.          (* an element that is not an HTMLElement *)

(** An element with its chain of ancestors.  [id] stands for the identity
    of the object; the three strings are its computed [overflow],
    [overflowX] and [overflowY]. *)
Inductive Element : Set :=
  mkElement (id : nat) (cls : ElementClass) (isContentEditable : bool)
            (overflow overflowX overflowY : string)
            (parentElement : option Element).

Definition id (e : Element) : nat :=
  let '(mkElement i _ _ _ _ _ _) := e in i.
Definition cls (e : Element) : ElementClass :=
  let '(mkElement _ c _ _ _ _ _) := e in c.
Definition isContentEditable (e : Element) : bool :=
  let '(mkElement _ _ b _ _ _ _) := e in b.
Definition parentElement (e : Element) : option Element :=
  let '(mkElement _ _ _ _ _ _ p) := e in p.

(** [a === b] on element references. *)
Definition same (a b : Element) : bool := Nat.eqb (id a) (id b).
Definition sameOpt (a : Element) (b : option Element) : bool :=
  match b with Some b => same a b | None => false end.

(** [/(auto|scroll)/.test(s)]. *)
Fixpoint contains (needle hay : string) : bool :=
  String.prefix needle hay
  || match hay with
     | EmptyString => false
     | String _ rest => contains needle rest
     end.

Definition isScrollable (node : Element) : bool :=
  let '(mkElement _ _ _ o ox oy _) := node in
  let s := o ++ ox ++ oy in
  contains "auto" s || contains "scroll" s.

(** Scroll geometry of an element, read when a handler runs. *)
Record Metrics : Set := mkMetrics {
  scrollTop : float;
  scrollHeight : float;
  clientHeight : float
}.

(** A value of a style property: a string, or the text [`${n}px`]. *)
Inductive css : Set :=
| css_text (s : string)
| css_px (n : Z).

(** The state of a [safariMobilePreventScroll] closure. *)
Record Touch : Set := mkTouch {
  scrollable : option Element;     (* undefined until the first touchstart *)
  lastY : float
}.

(** The part of the page the lock reads and writes. *)
Record Dom : Set := mkDom {
  documentElement : Element;
  body : option Element;
  scrollingElement : option Element;
  activeElement : option Element;
  metrics : nat -> Metrics;
  transform : nat -> string;            (* [style.transform] of each element *)
  paddingRight : css;                   (* of the document element *)
  innerWidth : Z;
  clientWidth : Z;                      (* of the document element *)
  scrollX : float;
  scrollY : float;
  touchListeners : list (nat * Touch);  (* installed closures, by key *)
  nextKey : nat;
  frames : list nat;                    (* pending animation-frame callbacks:
                                           each clears one element's transform *)
  canFocus : nat -> bool                (* whether [focus()] on the element
                                           makes it the active element *)
}.

Definition set_transform (i : nat) (v : string) (d : Dom) : Dom :=
  mkDom (documentElement d) (body d) (scrollingElement d) (activeElement d)
        (metrics d) (fun j => if Nat.eqb j i then v else transform d j)
        (paddingRight d) (innerWidth d) (clientWidth d) (scrollX d) (scrollY d)
        (touchListeners d) (nextKey d) (frames d) (canFocus d).

Definition set_activeElement (e : option Element) (d : Dom) : Dom :=
  mkDom (documentElement d) (body d) (scrollingElement d) e
        (metrics d) (transform d)
        (paddingRight d) (innerWidth d) (clientWidth d) (scrollX d) (scrollY d)
        (touchListeners d) (nextKey d) (frames d) (canFocus d).

Definition set_paddingRight (v : css) (d : Dom) : Dom :=
  mkDom (documentElement d) (body d) (scrollingElement d) (activeElement d)
        (metrics d) (transform d)
        v (innerWidth d) (clientWidth d) (scrollX d) (scrollY d)
        (touchListeners d) (nextKey d) (frames d) (canFocus d).

(** An assignment to [style.paddingRight].  A padding is not negative: the
    style object ignores the text [`${n}px`] for a negative [n] and keeps
    the value it had.  A string is a value that was read from the style
    object before, which it takes back. *)
Definition acceptsPadding (v : css) : bool :=
  match v with
  | css_px n => (0 <=? n)%Z
  | css_text _ => true
  end.

Definition assign_paddingRight (v : css) (d : Dom) : Dom :=
  if acceptsPadding v then set_paddingRight v d else d.

(** [target.focus()]: the target becomes the active element when it can
    take focus; otherwise (a disabled input, an element inside an editing
    host) the active element stays. *)
Definition focus (target : Element) (d : Dom) : Dom :=
  if canFocus d (id target) then set_activeElement (Some target) d else d.

(** [window.scrollTo(x, y)]. *)
Definition scrollTo (x y : float) (d : Dom) : Dom :=
  mkDom (documentElement d) (body d) (scrollingElement d) (activeElement d)
        (metrics d) (transform d)
        (paddingRight d) (innerWidth d) (clientWidth d) x y
        (touchListeners d) (nextKey d) (frames d) (canFocus d).

Definition set_touchListeners (l : list (nat * Touch)) (k : nat) (d : Dom) : Dom :=
  mkDom (documentElement d) (body d) (scrollingElement d) (activeElement d)
        (metrics d) (transform d)
        (paddingRight d) (innerWidth d) (clientWidth d) (scrollX d) (scrollY d)
        l k (frames d) (canFocus d).

Definition set_frames (f : list nat) (d : Dom) : Dom :=
  mkDom (documentElement d) (body d) (scrollingElement d) (activeElement d)
        (metrics d) (transform d)
        (paddingRight d) (innerWidth d) (clientWidth d) (scrollX d) (scrollY d)
        (touchListeners d) (nextKey d) f (canFocus d).

(** *** Scroll parents *)

(** The [while] loop of [getScrollParent]: climb until a scrollable node. *)
Fixpoint climb (node : Element) : option Element :=
  if isScrollable node then Some node
  else
    match node with
    | mkElement _ _ _ _ _ _ (Some p) => climb p
    | mkElement _ _ _ _ _ _ None => None
    end.

Definition getScrollParent (d : Dom) (node : Element) : Element :=
  let start := if isScrollable node then parentElement node else Some node in
  let found := match start with Some n => climb n | None => None end in
  match found with
  | Some n => n
  | None =>
      match scrollingElement d with
      | Some root => root
      | None => documentElement d
      end
  end.

(** *** Text inputs *)

(** HTML input types that do not cause the software keyboard to appear. *)
Definition NON_TEXT_INPUT_TYPES : list string :=
  ["checkbox"; "radio"; "range"; "color"; "file"; "image"; "button";
   "submit"; "reset"].

Definition has (set : list string) (s : string) : bool :=
  existsb (String.eqb s) set.

Definition isInput (target : Element) : bool :=
  match cls target with
  | HTMLInputElement type => negb (has NON_TEXT_INPUT_TYPES type)
  | _ => false
  end
  || match cls target with HTMLTextAreaElement => true | _ => false end
  || (match cls target with OtherElement => false | _ => true end
      && isContentEditable target).

(** *** The touch handlers of [safariMobilePreventScroll] *)

(** A touch event: its target and [changedTouches[0].pageY]. *)
Record TouchEvent : Set := mkTouchEvent {
  target : Element;
  pageY : float
}.

Definition onTouchStart (d : Dom) (e : TouchEvent) (st : Touch) : Touch :=
  let scrollable := getScrollParent d (target e) in
  if same scrollable (documentElement d) && sameOpt scrollable (body d)
  then {| scrollable := Some scrollable; lastY := lastY st |}
  else {| scrollable := Some scrollable; lastY := pageY e |}.

(** The new closure state and whether [preventDefault] was called. *)
Definition onTouchMove (d : Dom) (e : TouchEvent) (st : Touch) : Touch * bool :=
  match scrollable st with
  | None => (st, true)
  | Some s =>
      if same s (documentElement d) || sameOpt s (body d) then (st, true)
      else
        let y := pageY e in
        let scrollTop := scrollTop (metrics d (id s)) in
        let bottom := scrollHeight (metrics d (id s)) - clientHeight (metrics d (id s)) in
        if bottom =? 0 then (st, false)
        else
          ({| scrollable := Some s; lastY := y |},
           ((scrollTop <=? 0) && gt y (lastY st))
           || (ge scrollTop bottom && (y <? lastY st)))
  end.

(** The callback handed to [requestAnimationFrame] is queued in
    [frames]. *)
Definition onTouchEnd (e : TouchEvent) (d : Dom) : Dom * bool :=
  let target := target e in
  if isInput target && negb (sameOpt target (activeElement d)) then
    let d1 := set_transform (id target) "translateY(-2000px)" d in
    let d2 := focus target d1 in
    (set_frames (frames d2 ++ [id target]) d2, true)
  else (d, false).

(** The recorded ancestor is the document root: the window-scrolling test
    of [onTouchMove]. *)
Definition isDocumentRoot (d : Dom) (s : Element) : bool :=
  same s (documentElement d) || sameOpt s (body d).

(** The touch-moves of one touch sequence, each with the page as it is
    when the event arrives: the final closure state and, in order, whether
    each move had its default prevented. *)
Fixpoint onTouchMoves (moves : list (Dom * TouchEvent)) (st : Touch)
  : Touch * list bool :=
  match moves with
  | [] => (st, [])
  | (d, e) :: rest =>
      let '(st1, p) := onTouchMove d e st in
      let '(st2, ps) := onTouchMoves rest st1 in
      (st2, p :: ps)
  end.

(** The three events the strategy listens to, and what one installed
    closure does with an event: its new state, the page, and whether it
    called [preventDefault]. *)
Inductive TouchType : Set := touchstart | touchmove | touchend.

Definition handleTouch (ty : TouchType) (e : TouchEvent) (st : Touch) (d : Dom)
  : Touch * Dom * bool :=
  match ty with
  | touchstart => (onTouchStart d e st, d, false)
  | touchmove => let '(st', p) := onTouchMove d e st in (st', d, p)
  | touchend => let '(d', p) := onTouchEnd e d in (st, d', p)
  end.

(** The event goes to every installed closure, in registration order. *)
Fixpoint dispatchTo (ty : TouchType) (e : TouchEvent)
         (installed : list (nat * Touch)) (d : Dom)
  : list (nat * Touch) * Dom * bool :=
  match installed with
  | [] => ([], d, false)
  | (k, st) :: rest =>
      let '(st', d1, p) := handleTouch ty e st d in
      let '(rest', d2, q) := dispatchTo ty e rest d1 in
      ((k, st') :: rest', d2, p || q)
  end.

Definition dispatchTouch (ty : TouchType) (e : TouchEvent) (d : Dom)
  : Dom * bool :=
  let '(installed, d', p) := dispatchTo ty e (touchListeners d) d in
  (set_touchListeners installed (nextKey d') d', p).


(** *** The two strategies *)

(** The closure a strategy returns, as the values it captured. *)
Inductive Restore : Set :=
| restoreStandard (cur : css)
| restoreSafari (cur : css) (key : nat) (scrollX scrollY : float).

Definition standardPreventScroll (d : Dom) : Dom * Restore :=
  let cur := paddingRight d in
  (assign_paddingRight (css_px (innerWidth d - clientWidth d)) d,
   restoreStandard cur).

Definition safariMobilePreventScroll (d : Dom) : Dom * Restore :=
  let x := scrollX d in
  let y := scrollY d in
  let cur := paddingRight d in
  let d1 := assign_paddingRight (css_px (innerWidth d - clientWidth d)) d in
  let d2 := scrollTo 0 0 d1 in
  let key := nextKey d2 in
  (set_touchListeners
     (touchListeners d2 ++ [(key, {| scrollable := None; lastY := 0 |})])
     (S key) d2,
   restoreSafari cur key x y).

Definition runRestore (r : Restore) (d : Dom) : Dom :=
  match r with
  | restoreStandard cur => assign_paddingRight cur d
  | restoreSafari cur key x y =>
      let d1 := assign_paddingRight cur d in
      let d2 := set_touchListeners
                  (filter (fun kl => negb (Nat.eqb (fst kl) key)) (touchListeners d1))
                  (nextKey d1) d1 in
      scrollTo x y d2
  end.

(** *** The hook *)

Inductive Strategy : Set := Standard | TouchInterception.

(** What the trace records: a strategy was applied, the stored closure was
    called. *)
Inductive Action : Set :=
| Applied (s : Strategy)
| Restored.

(** The module-level variables [preventScrollCount] and [restore]
    ([None]: still undefined), the page, and the trace of what ran. *)
Record World : Set := mkWorld {
  preventScrollCount : Z;
  restore : option Restore;
  dom : Dom;
  trace : list Action
}.

(** The body of the layout effect; the boolean tells whether it returned a
    cleanup function. *)
Definition effect (nav : option Navigator) (isDisabled : bool) (w : World)
  : World * bool :=
  if isDisabled then (w, false)
  else
    let n := (preventScrollCount w + 1)%Z in
    if (n =? 1)%Z then
      if isIOS nav then
        let '(d, r) := safariMobilePreventScroll (dom w) in
        ({| preventScrollCount := n; restore := Some r; dom := d;
            trace := trace w ++ [Applied TouchInterception] |}, true)
      else
        let '(d, r) := standardPreventScroll (dom w) in
        ({| preventScrollCount := n; restore := Some r; dom := d;
            trace := trace w ++ [Applied Standard] |}, true)
    else
      ({| preventScrollCount := n; restore := restore w; dom := dom w;
          trace := trace w |}, true).

(** The cleanup function; [None] when it throws because [restore] is not a
    function. *)
Definition cleanup (w : World) : option World :=
  let n := (preventScrollCount w - 1)%Z in
  if (n =? 0)%Z then
    match restore w with
    | Some r =>
        Some {| preventScrollCount := n; restore := Some r;
                dom := runRestore r (dom w);
                trace := trace w ++ [Restored] |}
    | None => None
    end
  else
    Some {| preventScrollCount := n; restore := restore w; dom := dom w;
            trace := trace w |}.

(** A lock request starts ([isDisabled] false) or ends. *)
Inductive Op : Set :=
| Activate (nav : option Navigator)
| Deactivate.

Definition step (op : Op) (w : World) : option World :=
  match op with
  | Activate nav => Some (fst (effect nav false w))
  | Deactivate => cleanup w
  end.

Fixpoint steps (ops : list Op) (w : World) : option World :=
  match ops with
  | [] => Some w
  | op :: rest =>
      match step op w with
      | Some w' => steps rest w'
      | None => None
      end
  end.

(** The strategy an activation picks, and what applying it does: the two
    branches of the effect at the first request. *)
Definition chosenStrategy (nav : option Navigator) : Strategy :=
  if isIOS nav then TouchInterception else Standard.

Definition applyStrategy (s : Strategy) (d : Dom) : Dom * Restore :=
  match s with
  | Standard => standardPreventScroll d
  | TouchInterception => safariMobilePreventScroll d
  end.

(** The two states of the specification's state machine. *)
Inductive LockState : Set := INACTIVE | ACTIVE.

Definition lockState (w : World) : LockState :=
  if (preventScrollCount w =? 0)%Z then INACTIVE else ACTIVE.

(** How many times the stored closure was called. *)
Definition restoreRuns (w : World) : nat :=
  List.length
    (filter (fun a => match a with Restored => true | Applied _ => false end)
            (trace w)).

(** The strategies applied so far, oldest first. *)
Definition applied (w : World) : list Strategy :=
  flat_map (fun a => match a with Applied s => [s] | Restored => [] end)
           (trace w).

End PreventScroll.

(** ** Ancestors *)

Module ScrollParents.

Import PreventScroll.

(** The strict ancestors of an element, nearest first. *)
Fixpoint ancestors (node : Element) : list Element :=
  match node with
  | mkElement _ _ _ _ _ _ (Some p) => p :: ancestors p
  | mkElement _ _ _ _ _ _ None => []
  end.

(** [document.scrollingElement || document.documentElement]. *)
Definition documentScroller (d : Dom) : Element :=
  match scrollingElement d with
  | Some root => root
  | None => documentElement d
  end.

(** Induction along the parent chain. *)
Fixpoint Element_chain_ind (P : Element -> Prop)
         (top : forall i c b o ox oy, P (mkElement i c b o ox oy None))
         (step : forall i c b o ox oy p,
             P p -> P (mkElement i c b o ox oy (Some p)))
         (node : Element) : P node :=
  match node with
  | mkElement i c b o ox oy None => top i c b o ox oy
  | mkElement i c b o ox oy (Some p) =>
      step i c b o ox oy p (Element_chain_ind P top step p)
  end.

End ScrollParents.

(** ** What the lock changes on the page *)

Module Layout.

Import PreventScroll.

(** What the strategies write and their closures give back, and the keys
    of the installed closures. *)
Definition layoutOf (d : Dom) : css * float * float :=
  (paddingRight d, scrollX d, scrollY d).

Definition keysOf (d : Dom) : list nat := map fst (touchListeners d).

Definition geometryOf (d : Dom) : css * float * float * Z * Z :=
  (layoutOf d, innerWidth d, clientWidth d).

(** The keys of the installed closures are older than the next key. *)
Definition keysFresh (d : Dom) : Prop :=
  Forall (fun kl => fst kl < nextKey d) (touchListeners d).

End Layout.

(** ** Instances of the hook *)

Module Hooks.

Import PreventScroll.

(** What React keeps for the layout effect of one [usePreventScroll] call:
    the dependency [isDisabled] of its last run and whether that run
    returned a cleanup. *)
Record Instance : Set := mkInstance {
  dep : bool;
  hasCleanup : bool
}.

Definition runEffect (nav : option Navigator) (isDisabled : bool) (w : World)
  : Instance * World :=
  let '(w', c) := effect nav isDisabled w in
  ({| dep := isDisabled; hasCleanup := c |}, w').

Definition runCleanup (i : Instance) (w : World) : option World :=
  if hasCleanup i then cleanup w else Some w.

(** A render of the component: the effect runs again, after the cleanup of
    its last run, when [isDisabled] has changed. *)
Definition rerender (nav : option Navigator) (isDisabled : bool)
           (i : Instance) (w : World) : option (Instance * World) :=
  if Bool.eqb isDisabled (dep i) then Some (i, w)
  else
    match runCleanup i w with
    | Some w1 => Some (runEffect nav isDisabled w1)
    | None => None
    end.

Fixpoint replaceNth {A : Type} (k : nat) (x : A) (l : list A) : list A :=
  match l, k with
  | [], _ => []
  | _ :: t, O => x :: t
  | h :: t, S k => h :: replaceNth k x t
  end.

Fixpoint removeNth {A : Type} (k : nat) (l : list A) : list A :=
  match l, k with
  | [], _ => []
  | _ :: t, O => t
  | h :: t, S k => h :: removeNth k t
  end.

(** The mounted instances and the module they share. *)
Record Tree : Set := mkTree {
  instances : list Instance;
  world : World
}.

Inductive Lifecycle : Set :=
| Mount (nav : option Navigator) (isDisabled : bool)
| Rerender (k : nat) (nav : option Navigator) (isDisabled : bool)
| Unmount (k : nat).

(** [None] when a cleanup throws. An event for an instance that is not
    mounted does nothing. *)
Definition lifecycle (ev : Lifecycle) (t : Tree) : option Tree :=
  match ev with
  | Mount nav isDisabled =>
      let '(i, w) := runEffect nav isDisabled (world t) in
      Some {| instances := instances t ++ [i]; world := w |}
  | Rerender k nav isDisabled =>
      match nth_error (instances t) k with
      | Some i =>
          match rerender nav isDisabled i (world t) with
          | Some (i', w) =>
              Some {| instances := replaceNth k i' (instances t); world := w |}
          | None => None
          end
      | None => Some t
      end
  | Unmount k =>
      match nth_error (instances t) k with
      | Some i =>
          match runCleanup i (world t) with
          | Some w => Some {| instances := removeNth k (instances t); world := w |}
          | None => None
          end
      | None => Some t
      end
  end.

Fixpoint lifecycles (evs : list Lifecycle) (t : Tree) : option Tree :=
  match evs with
  | [] => Some t
  | ev :: rest =>
      match lifecycle ev t with
      | Some t' => lifecycles rest t'
      | None => None
      end
  end.

(** The number of mounted instances whose lock request is pending. *)
Definition enabled (l : list Instance) : nat :=
  List.length (filter hasCleanup l).

(** The module variables when [n] lock requests are pending: the counter
    is [n], a closure is stored as soon as one is pending, and every
    strategy applied so far has been undone, except the one in force. *)
Definition held (n : nat) (w : World) : Prop :=
  preventScrollCount w = Z.of_nat n
  /\ (0 < n -> restore w <> None)
  /\ List.length (applied w)
     = restoreRuns w + (if Nat.eqb n 0 then 0 else 1).

Definition consistent (t : Tree) : Prop :=
  held (enabled (instances t)) (world t)
  /\ Forall (fun i => hasCleanup i = negb (dep i)) (instances t).

End Hooks.

(** ** The sheet with its scroll lock *)

Module App.

Import BottomSheet PreventScroll Hooks.

(** [BottomSheet] calls [usePreventScroll({ isDisabled: !isDragging })] at
    every render. *)
Record App : Set := mkApp {
  sheet : Component;
  lock : Instance;
  page : World
}.

Definition appMount (rect : option float) (nav : option Navigator) (w : World)
  : App :=
  let '(i, w') := runEffect nav (negb false) w in
  {| sheet := mount rect; lock := i; page := w' |}.

Definition appDispatch (nav : option Navigator) (e : Event) (a : App)
  : option App :=
  let c := dispatch e (sheet a) in
  match rerender nav (negb (isDragging (state c))) (lock a) (page a) with
  | Some (i, w) => Some {| sheet := c; lock := i; page := w |}
  | None => None
  end.

Fixpoint appRun (nav : option Navigator) (evs : list Event) (a : App)
  : option App :=
  match evs with
  | [] => Some a
  | e :: rest =>
      match appDispatch nav e a with
      | Some a' => appRun nav rest a'
      | None => None
      end
  end.

(** The lock follows the drag: idle, nothing is requested and the page has
    the geometry of [w0]; dragging, one request is pending, made on a page
    [d0] with that geometry, and its closure is stored. *)
Definition lockFollowsDrag (nav : option Navigator) (w0 : World) (a : App)
  : Prop :=
  if isDragging (state (sheet a)) then
    lock a = {| dep := false; hasCleanup := true |}
    /\ preventScrollCount (page a) = 1%Z
    /\ exists d0 : Dom,
         Layout.geometryOf d0 = Layout.geometryOf (dom w0)
         /\ dom (page a) = fst (applyStrategy (chosenStrategy nav) d0)
         /\ restore (page a) = Some (snd (applyStrategy (chosenStrategy nav) d0))
  else
    lock a = {| dep := true; hasCleanup := false |}
    /\ preventScrollCount (page a) = 0%Z
    /\ Layout.geometryOf (dom (page a)) = Layout.geometryOf (dom w0).

End App.

(** ** The mouse-event variant of the sheet *)

Module MouseSheet.

Local Open Scope float_scope.

(** The first [BottomSheet] of the file listens to mouse events and writes
    the [transition] property itself; its [between], [withMinHeightLimit],
    [updateDragState] and [animateTo] are the text of the pointer variant,
    letter for letter, and are shared with it here. *)
Record Style : Set := mkStyle {
  transition : string;
  height : float
}.

Record Refs : Set := mkRefs {
  dragState : BottomSheet.DragRef;
  style : Style
}.

Definition handleOnMove (r : BottomSheet.Render) (clientY : float) (m : Refs)
  : Refs :=
  if negb (BottomSheet.isDragging r) then m
  else
    let d := BottomSheet.updateDragState (dragState m) clientY in
    {| dragState := d;
       style := {| transition := "height 0.15s ease-out";
                   height := BottomSheet.withMinHeightLimit
                               (BottomSheet.blockHeight r - BottomSheet.drag d) |} |}.

Record Outcome : Set := mkOutcome {
  refs' : Refs;
  setDragging : option bool;
  setBlockHeight : option float;
  prevented : bool
}.

Definition handleMouseDown (clientY : float) (m : Refs) : Outcome :=
  let d := dragState m in
  {| refs' := {| dragState := {| BottomSheet.last := clientY;
                                 BottomSheet.drag := BottomSheet.drag d;
                                 BottomSheet.from := clientY |};
                 style := style m |};
     setDragging := Some true;
     setBlockHeight := None;
     prevented := true |}.

Definition handleMouseUp (wH : float) (r : BottomSheet.Render) (m : Refs)
  : Outcome :=
  let d := dragState m in
  let to := BottomSheet.animateTo wH r d in
  {| refs' := {| dragState := {| BottomSheet.last := BottomSheet.last d;
                                 BottomSheet.drag := 0;
                                 BottomSheet.from := BottomSheet.from d |};
                 style := {| transition := "height 0.35s cubic-bezier(0.22, 1, 0.36, 1)";
                             height := BottomSheet.withMinHeightLimit to |} |};
     setDragging := Some false;
     setBlockHeight := Some (BottomSheet.withMinHeightLimit to);
     prevented := false |}.

Record Component : Set := mkComponent {
  state : BottomSheet.Render;
  listeners : BottomSheet.Render;
  refs : Refs
}.

Definition commit (c : Component) (o : Outcome) : Component :=
  let st := {| BottomSheet.isDragging :=
                 BottomSheet.orElse (setDragging o)
                                    (BottomSheet.isDragging (state c));
               BottomSheet.blockHeight :=
                 BottomSheet.orElse (setBlockHeight o)
                                    (BottomSheet.blockHeight (state c)) |} in
  {| state := st;
     listeners := if Bool.eqb (BottomSheet.isDragging st)
                              (BottomSheet.isDragging (state c))
                  then listeners c else st;
     refs := refs' o |}.

Inductive Event : Set :=
| MouseDown (clientY : float)       (* on the drag handle *)
| MouseMove (clientY : float)       (* anywhere on the document *)
| MouseUp (innerHeight : float).    (* anywhere on the document *)

Definition dispatch (e : Event) (c : Component) : Component :=
  match e with
  | MouseDown y => commit c (handleMouseDown y (refs c))
  | MouseMove y =>
      commit c {| refs' := handleOnMove (listeners c) y (refs c);
                  setDragging := None; setBlockHeight := None;
                  prevented := false |}
  | MouseUp wH => commit c (handleMouseUp wH (listeners c) (refs c))
  end.

Definition run (evs : list Event) (c : Component) : Component :=
  fold_left (fun c e => dispatch e c) evs c.

Definition mount (rect : option float) : Component :=
  let first := {| BottomSheet.isDragging := false;
                  BottomSheet.blockHeight := 0 |} in
  {| state := {| BottomSheet.isDragging := false;
                 BottomSheet.blockHeight := BottomSheet.orElse rect 0 |};
     listeners := first;
     refs := {| dragState := {| BottomSheet.last := 0; BottomSheet.drag := 0;
                                BottomSheet.from := 0 |};
                style := {| transition :=
                              "height var(--bs-duration) var(--bs-duration)";
                            height := BottomSheet.MIN_BS_HEIGHT |} |} |}.

(** The pointer event that plays the part of a mouse event. *)
Definition asPointer (e : Event) : BottomSheet.Event :=
  match e with
  | MouseDown y => BottomSheet.PointerDown y
  | MouseMove y => BottomSheet.PointerMove y
  | MouseUp wH => BottomSheet.PointerUp wH
  end.

(** Two components that differ in the transition they last wrote only. *)
Definition agrees (m : Component) (p : BottomSheet.Component) : Prop :=
  state m = BottomSheet.state p
  /\ listeners m = BottomSheet.listeners p
  /\ dragState (refs m) = BottomSheet.dragState (BottomSheet.refs p)
  /\ height (style (refs m))
     = BottomSheet.height (BottomSheet.style (BottomSheet.refs p)).

End MouseSheet.

(** ** Sample pages *)

Module Samples.

Import PreventScroll.
Local Open Scope string_scope.
Local Open Scope float_scope.

(** [<html><body><div/><input type="text"/></body></html>], nothing
    scrollable. *)
Definition html : Element :=
  mkElement 0 HTMLElement false "visible" "visible" "visible" None.
Definition bodyElement : Element :=
  mkElement 1 HTMLElement false "visible" "visible" "visible" (Some html).
Definition div : Element :=
  mkElement 2 HTMLElement false "visible" "visible" "visible" (Some bodyElement).
Definition textInput : Element :=
  mkElement 3 (HTMLInputElement "text") false "visible" "clip" "clip"
            (Some bodyElement).

(** A disabled text input, which cannot take focus, and an editing host
    with a [span] in it: the host takes focus, the [span] does not. *)
Definition disabledInput : Element :=
  mkElement 6 (HTMLInputElement "text") false "visible" "clip" "clip"
            (Some bodyElement).
Definition editor : Element :=
  mkElement 7 HTMLElement true "visible" "visible" "visible" (Some bodyElement).
Definition editorSpan : Element :=
  mkElement 8 HTMLElement true "visible" "visible" "visible" (Some editor).

(** A scrollable list inside the body, and an item of it. *)
Definition scroller : Element :=
  mkElement 4 HTMLElement false "hidden auto" "hidden" "auto" (Some bodyElement).
Definition item : Element :=
  mkElement 5 HTMLElement false "visible" "visible" "visible" (Some scroller).

(** A page 800px wide with a 15px scrollbar, scrolled down by 120px; the
    scroller shows 300px of 1000px and is scrolled by 40px. *)
Definition page : Dom :=
  {| documentElement := html;
     body := Some bodyElement;
     scrollingElement := Some html;
     activeElement := Some bodyElement;
     metrics := fun i =>
                  if Nat.eqb i 4
                  then {| scrollTop := 40; scrollHeight := 1000; clientHeight := 300 |}
                  else {| scrollTop := 0; scrollHeight := 600; clientHeight := 600 |};
     transform := fun _ => "";
     paddingRight := css_text "";
     innerWidth := 800;
     clientWidth := 785;
     scrollX := 0;
     scrollY := 120;
     touchListeners := [];
     nextKey := 0;
     frames := [];
     canFocus := fun i => Nat.eqb i 3 || Nat.eqb i 7 |}.

(** The module as loaded: no request yet, [restore] undefined. *)
Definition loaded : World :=
  {| preventScrollCount := 0; restore := None; dom := page; trace := [] |}.

Definition iPhone : option Navigator :=
  Some {| userAgentDataPlatform := None; platform := "iPhone";
          maxTouchPoints := 5 |}.
Definition iPadOS : option Navigator :=
  Some {| userAgentDataPlatform := None; platform := "MacIntel";
          maxTouchPoints := 5 |}.
Definition desktop : option Navigator :=
  Some {| userAgentDataPlatform := Some "Linux"; platform := "Linux x86_64";
          maxTouchPoints := 0 |}.

End Samples.

(** * Facts

  ** Binary64 comparisons and subtraction

  Each fact is read off the specification of the primitive operation on
  [spec_float]. *)

Section FloatFacts.
Local Open Scope float_scope.

Lemma SFcompare_flip x y :
  SFcompare y x = match SFcompare x y with
                  | Some c => Some (CompOpp c)
                  | None => None
                  end.
Proof.
  destruct x as [sx|sx| |sx mx ex], y as [sy|sy| |sy my ey]; simpl;
    try reflexivity;
    try (destruct sx; reflexivity); try (destruct sy; reflexivity);
    try (destruct sx, sy; reflexivity).
  destruct sx, sy; try reflexivity;
    rewrite (Z.compare_antisym ex ey);
    destruct (ex ?= ey)%Z; simpl; try reflexivity;
    change (Pos.compare_cont Eq my mx) with (my ?= mx)%positive;
    change (Pos.compare_cont Eq mx my) with (mx ?= my)%positive;
    rewrite (Pos.compare_antisym mx my); destruct (mx ?= my)%positive; reflexivity.
Qed.

Lemma ltb_leb_true x y : (x <? y) = true -> (x <=? y) = true.
Proof.
  rewrite ltb_spec, leb_spec. unfold SFltb, SFleb.
  destruct (SFcompare (Prim2SF x) (Prim2SF y)) as [[]|]; easy.
Qed.

Lemma ltb_leb_flip x y : (x <? y) = true -> (y <=? x) = false.
Proof.
  rewrite ltb_spec, leb_spec. unfold SFltb, SFleb.
  rewrite (SFcompare_flip (Prim2SF x) (Prim2SF y)).
  destruct (SFcompare (Prim2SF x) (Prim2SF y)) as [[]|]; easy.
Qed.

Lemma leb_ltb_flip x y : (x <=? y) = true -> (y <? x) = false.
Proof.
  rewrite ltb_spec, leb_spec. unfold SFltb, SFleb.
  rewrite (SFcompare_flip (Prim2SF x) (Prim2SF y)).
  destruct (SFcompare (Prim2SF x) (Prim2SF y)) as [[]|]; easy.
Qed.

Lemma SFcompare_refl x : x <> S754_nan -> SFcompare x x = Some Eq.
Proof.
  destruct x as [s|s| |s m e]; simpl; intros H; try congruence.
  - destruct s; reflexivity.
  - destruct s; rewrite Z.compare_refl;
      change (Pos.compare_cont Eq m m) with (m ?= m)%positive;
      rewrite Pos.compare_refl; reflexivity.
Qed.

Lemma leb_refl_r x y : (x <=? y) = true -> (y <=? y) = true.
Proof.
  rewrite !leb_spec. unfold SFleb. intros H.
  rewrite SFcompare_refl; [reflexivity|].
  intros E. rewrite E in H. destruct (Prim2SF x); discriminate.
Qed.

Lemma leb_refl_l x y : (x <=? y) = true -> (x <=? x) = true.
Proof.
  rewrite !leb_spec. unfold SFleb. intros H.
  rewrite SFcompare_refl; [reflexivity|].
  intros E. rewrite E in H. discriminate.
Qed.

Lemma sub_diag x :
  Prim2SF (x - x) = S754_zero false \/ Prim2SF (x - x) = S754_nan.
Proof.
  rewrite sub_spec. unfold SF64sub.
  destruct (Prim2SF x) as [s|s| |s m e]; simpl.
  - left. destruct s; reflexivity.
  - right. destruct s; reflexivity.
  - right. reflexivity.
  - left. rewrite Z.min_id. unfold shl_align.
    rewrite ?Z.sub_diag; simpl; rewrite ?Z.sub_diag; reflexivity.
Qed.

Lemma sub_diag_not_pos x : (0 <? x - x) = false.
Proof.
  rewrite ltb_spec. destruct (sub_diag x) as [E|E]; rewrite E; reflexivity.
Qed.

Lemma sub_0_r x : x - 0 = x.
Proof.
  apply Prim2SF_inj. rewrite sub_spec. unfold SF64sub.
  change (Prim2SF 0) with (S754_zero false).
  destruct (Prim2SF x) as [s|s| |s m e]; simpl; try reflexivity.
  destruct s; reflexivity.
Qed.

Lemma is_finite_sub_diag x : is_finite x = true -> (x - x =? 0) = true.
Proof.
  intros F. rewrite eqb_spec. change (Prim2SF 0) with (S754_zero false).
  destruct (sub_diag x) as [E|E]; rewrite E; [reflexivity|].
  exfalso. revert F E. unfold is_finite, is_nan, is_infinity.
  rewrite !eqb_spec, abs_spec, sub_spec. unfold SF64sub.
  change (Prim2SF infinity) with (S754_infinity false).
  destruct (Prim2SF x) as [s|s| |s m e].
  - destruct s; discriminate.
  - destruct s; discriminate.
  - discriminate.
  - intros _. unfold SFsub. rewrite Z.min_id. unfold shl_align.
    rewrite ?Z.sub_diag; simpl; rewrite ?Z.sub_diag; discriminate.
Qed.

Lemma mul_comm x y : x * y = y * x.
Proof.
  apply Prim2SF_inj. rewrite !mul_spec. unfold SF64mul.
  destruct (Prim2SF x) as [sx|sx| |sx mx ex], (Prim2SF y) as [sy|sy| |sy my ey];
    simpl; try reflexivity; try (rewrite xorb_comm; reflexivity).
  rewrite xorb_comm, Pos.mul_comm, Z.add_comm. reflexivity.
Qed.

Lemma eqb_false_neq x y : (x =? y) = false -> (y =? y) = true -> x <> y.
Proof. intros H R E. rewrite E in H. congruence. Qed.
End FloatFacts.

(** ** The drag controller *)

Section SheetFacts.

Import Js BottomSheet.
Local Open Scope float_scope.

Lemma floor_of_zero : withMinHeightLimit 0 = 24.
Proof. reflexivity. Qed.

(** The examples of the specification, with [wH = 1000]: an upward gesture
    released in the top zone, a downward one released there, and an upward
    one released in the middle zone. *)
Example release_top_up :
  animateTo 1000 {| isDragging := true; blockHeight := 600 |}
            (updateDragState {| last := 500; drag := 0; from := 500 |} 300)
  = 900.
Proof. reflexivity. Qed.

Example release_top_down :
  animateTo 1000 {| isDragging := true; blockHeight := 600 |}
            (updateDragState {| last := 300; drag := 0; from := 300 |} 400)
  = 500.
Proof. reflexivity. Qed.

(** The first gesture turned downward, from 300 to 500: the candidate
    height is then 400, in the middle zone, and the release closes the
    sheet. *)
Example release_middle_down :
  animateTo 1000 {| isDragging := true; blockHeight := 600 |}
            (updateDragState {| last := 300; drag := 0; from := 300 |} 500)
  = 0.
Proof. reflexivity. Qed.

Example release_middle_up :
  animateTo 1000 {| isDragging := true; blockHeight := 200 |}
            (updateDragState {| last := 500; drag := 0; from := 500 |} 450)
  = 500.
Proof. reflexivity. Qed.

(** Two whole gestures on a 1000px window, from the mounted sheet: a drag up
    by 200px opens it to mid-height, a second one by 100px to the top; after
    each release the registered handlers are those of the current render. *)
Example gesture_opens_to_mid :
  let c := run [PointerDown 900; PointerMove 800; PointerMove 700; PointerUp 1000]
               (mount (Some 24)) in
  state c = {| isDragging := false; blockHeight := 500 |}
  /\ listeners c = state c
  /\ refs c = {| dragState := {| last := 700; drag := 0; from := 900 |};
                 style := {| bsDuration := "0.35s"; height := 500 |} |}.
Proof. repeat split. Qed.

Example gesture_opens_to_top :
  let c := run [PointerDown 900; PointerMove 700; PointerUp 1000;
                PointerDown 500; PointerMove 400; PointerUp 1000]
               (mount (Some 24)) in
  state c = {| isDragging := false; blockHeight := 900 |}
  /\ listeners c = state c.
Proof. repeat split. Qed.

(** A pointer-up after the first gesture is over: the handler still finds
    [from - last > 0] and a height of 500 in the top zone, and opens the
    sheet to the top.  [isDragging] has not changed, so the handlers stay
    those of the render with [blockHeight = 500]. *)
Example pointer_up_after_gesture :
  let c := run [PointerDown 900; PointerMove 800; PointerMove 700; PointerUp 1000;
                PointerUp 1000]
               (mount (Some 24)) in
  state c = {| isDragging := false; blockHeight := 900 |}
  /\ listeners c = {| isDragging := false; blockHeight := 500 |}.
Proof. repeat split. Qed.

(** [animateTo] is the table, with the zones as it tests them. *)
Lemma animateTo_table (wH : float) (r : Render) (d : DragRef) :
  animateTo wH r d
  = snapTable wH
      (between (wH * 0.05) (wH * 0.45) (blockHeight r - drag d))
      (between (wH * 0.45) (wH * 0.9) (blockHeight r - drag d))
      (gt (from d - last d) 0).
Proof.
  unfold animateTo, snapTable.
  rewrite (mul_comm wH 0.5), (mul_comm wH 0.9). reflexivity.
Qed.

(** C1. On release the snap target follows the case table of the
    specification, with [h = blockHeight - drag], [up = from - last > 0]
    and the zones as [animateTo] tests them: [0.5 * wH] in the middle zone
    going up, else [0.9 * wH] in the top zone going up, else [0.5 * wH] in
    the top zone not going up, else [0]; the middle zone is looked at
    first, so it wins where both zones hold. *)
Theorem snap_case_table :
  forall (wH : float) (r : Render) (d : DragRef),
    let h := blockHeight r - drag d in
    let up := gt (from d - last d) 0 in
    let middle := between (wH * 0.05) (wH * 0.45) h in
    let top := between (wH * 0.45) (wH * 0.9) h in
    animateTo wH r d = snapTable wH middle top up
    /\ (middle && up = true -> animateTo wH r d = 0.5 * wH)
    /\ (middle && up = false -> top && up = true -> animateTo wH r d = 0.9 * wH)
    /\ (middle && up = false -> top && negb up = true -> animateTo wH r d = 0.5 * wH)
    /\ (middle && up = false -> top = false -> animateTo wH r d = 0).
Proof.
  intros wH r d h up middle top.
  assert (T : animateTo wH r d = snapTable wH middle top up)
    by apply animateTo_table.
  split; [exact T|]. rewrite T. unfold snapTable.
  repeat split.
  - intros ->. reflexivity.
  - intros -> ->. reflexivity.
  - intros -> H. destruct top, up; try discriminate; reflexivity.
  - intros -> ->. reflexivity.
Qed.

Lemma snap_case_table_witness :
  animateTo 1000 {| isDragging := true; blockHeight := 600 |}
            {| last := 300; drag := -200; from := 500 |} = 0.9 * 1000.
Proof.
  apply (proj1 (proj2 (proj2
           (snap_case_table 1000 {| isDragging := true; blockHeight := 600 |}
              {| last := 300; drag := -200; from := 500 |})))); reflexivity.
Defined.

(** What a pointer-up leaves behind, whatever the component was doing. *)
Lemma dispatch_PointerUp (c : Component) (wH : float) :
  let to := animateTo wH (listeners c) (dragState (refs c)) in
  let c' := dispatch (PointerUp wH) c in
  state c' = {| isDragging := false; blockHeight := withMinHeightLimit to |}
  /\ dragState (refs c')
     = {| last := last (dragState (refs c)); drag := 0;
          from := from (dragState (refs c)) |}
  /\ style (refs c')
     = {| bsDuration := "0.35s"; height := withMinHeightLimit to |}.
Proof. repeat split. Qed.

(** C2. Releasing commits [blockHeight] to one of the three detents,
    floored at 24: [max(24, 0) = 24], [max(24, 0.5 * wH)] or
    [max(24, 0.9 * wH)], for every component state (starting height,
    accumulated drag, direction) and every viewport height; the rendered
    height is that same value. *)
Theorem release_commits_detent :
  forall (c : Component) (wH : float),
    let c' := dispatch (PointerUp wH) c in
    Math_max 24 0 = 24
    /\ (blockHeight (state c') = Math_max 24 0
        \/ blockHeight (state c') = Math_max 24 (0.5 * wH)
        \/ blockHeight (state c') = Math_max 24 (0.9 * wH))
    /\ height (style (refs c')) = blockHeight (state c').
Proof.
  intros c wH c'. split; [reflexivity|].
  destruct (dispatch_PointerUp c wH) as (S & _ & Y).
  fold c' in S, Y. rewrite S, Y. simpl. split; [|reflexivity].
  rewrite animateTo_table. unfold snapTable, withMinHeightLimit, MIN_BS_HEIGHT.
  destruct (_ && _); [right; left; reflexivity|].
  destruct (_ && _); [right; right; reflexivity|].
  destruct (_ && _); [right; left; reflexivity|].
  left; reflexivity.
Qed.

(** *** Pointer moves *)

Lemma run_app (xs ys : list Event) (c : Component) :
  run (xs ++ ys) c = run ys (run xs c).
Proof. apply fold_left_app. Qed.

Lemma listeners_current_mount (rect : option float) :
  listeners_current (mount rect).
Proof. split; [reflexivity | discriminate]. Qed.

Lemma listeners_current_dispatch (e : Event) (c : Component) :
  listeners_current c -> listeners_current (dispatch e c).
Proof.
  destruct c as [[sd sh] [ld lh] m]. unfold listeners_current. simpl.
  intros [-> F]. destruct e as [y|y|wH]; simpl.
  - destruct sd; simpl; split; auto.
  - destruct sd; simpl; split; auto.
  - destruct sd; simpl; split; auto; discriminate.
Qed.

Lemma listeners_current_run (evs : list Event) (c : Component) :
  listeners_current c -> listeners_current (run evs c).
Proof.
  revert c. induction evs as [|e evs IH]; intros c H; [exact H|].
  apply IH, listeners_current_dispatch, H.
Qed.

(** One pointer-move under a handler that sees an active drag. *)
Lemma dispatch_PointerMove (c : Component) (y : float) :
  isDragging (listeners c) = true ->
  let d := updateDragState (dragState (refs c)) y in
  dispatch (PointerMove y) c
  = {| state := state c;
       listeners := listeners c;
       refs := {| dragState := d;
                  style := {| bsDuration := "0s";
                              height := withMinHeightLimit
                                          (blockHeight (listeners c) - drag d) |} |} |}.
Proof.
  destruct c as [[sd sh] [ld lh] m]. simpl. intros ->.
  destruct sd; reflexivity.
Qed.

Lemma dispatch_PointerMove_idle (c : Component) (y : float) :
  isDragging (listeners c) = false -> dispatch (PointerMove y) c = c.
Proof.
  destruct c as [[sd sh] [ld lh] m]. simpl. intros ->.
  destruct sd; reflexivity.
Qed.

Lemma moves_keep_state (ys : list float) (c : Component) :
  isDragging (listeners c) = true ->
  state (run (map PointerMove ys) c) = state c
  /\ listeners (run (map PointerMove ys) c) = listeners c.
Proof.
  revert c. induction ys as [|y ys IH]; intros c D; [split; reflexivity|].
  change (run (map PointerMove (y :: ys)) c)
    with (run (map PointerMove ys) (dispatch (PointerMove y) c)).
  pose proof (dispatch_PointerMove c y D) as E. cbv zeta in E.
  destruct (IH (dispatch (PointerMove y) c)) as [S L].
  - rewrite E. exact D.
  - rewrite S, L, E. split; reflexivity.
Qed.

(** C3. A pointer-move handled during a drag sets
    [deltaY = last - pointerY], [last := pointerY],
    [drag := drag - deltaY] and renders [max(24, blockHeight - drag)]; a
    handler that does not see a drag changes nothing.  So from any state
    the mounted component can reach with a drag active, after each
    pointer-move of any sequence the rendered height is
    [max(24, blockHeight - drag)] for the current [blockHeight] and
    [drag], and [blockHeight] itself has not moved. *)
Theorem move_tracks_height :
  (forall (d : DragRef) (pointerY : float),
      updateDragState d pointerY
      = {| last := pointerY; drag := drag d - (last d - pointerY);
           from := from d |})
  /\ (forall (r : Render) (pointerY : float) (m : Refs),
         isDragging r = true ->
         dragState (handleOnMove r pointerY m)
         = updateDragState (dragState m) pointerY
         /\ height (style (handleOnMove r pointerY m))
            = Math_max 24 (blockHeight r
                           - drag (dragState (handleOnMove r pointerY m))))
  /\ (forall (r : Render) (pointerY : float) (m : Refs),
         isDragging r = false -> handleOnMove r pointerY m = m)
  /\ (forall (rect : option float) (evs : list Event)
             (ys : list float) (y : float),
         let c := run evs (mount rect) in
         let c' := run (map PointerMove (ys ++ [y])) c in
         isDragging (state c) = true ->
         state c' = state c
         /\ height (style (refs c'))
            = Math_max 24 (blockHeight (state c') - drag (dragState (refs c')))).
Proof.
  split; [reflexivity|]. split; [|split].
  - intros r y m D. unfold handleOnMove. rewrite D. simpl. split; reflexivity.
  - intros r y m D. unfold handleOnMove. rewrite D. reflexivity.
  - intros rect evs ys y c c' D.
    assert (I : listeners_current c)
      by apply listeners_current_run, listeners_current_mount.
    destruct I as [LD LS]. specialize (LS D). rewrite D in LD.
    unfold c'. rewrite map_app, run_app.
    change (run (map PointerMove [y]) ?x) with (dispatch (PointerMove y) x).
    destruct (moves_keep_state ys c LD) as [S L].
    set (c1 := run (map PointerMove ys) c) in *.
    rewrite dispatch_PointerMove by (rewrite L; exact LD).
    simpl. rewrite S, L, LS. split; reflexivity.
Qed.

Lemma move_tracks_height_witness :
  let c := run [PointerDown 500] (mount (Some 24)) in
  let c' := run (map PointerMove ([450; 400] ++ [300])) c in
  state c' = state c
  /\ height (style (refs c'))
     = Math_max 24 (blockHeight (state c') - drag (dragState (refs c'))).
Proof.
  apply (proj2 (proj2 (proj2 move_tracks_height)) (Some 24) [PointerDown 500]
           [450; 400] 300).
  reflexivity.
Defined.

(** *** Zone boundaries *)

Lemma between_spec (min max value : float) :
  between min max value = true
  <-> (min <=? value) = true /\ (value <=? max) = true.
Proof. unfold between, ge. apply andb_true_iff. Qed.

(** With [wH = 1000] a sheet resting at 500 is dragged up by 400, so that
    the candidate height is exactly [0.9 * wH = 900]: the top-zone test
    holds and the release snaps to 900, committed as 900; the same
    candidate height reached going down snaps to 500.  Neither is 0, nor
    committed as 24. *)
Lemma top_bound_is_inclusive :
  let wH := 1000 in
  let r := {| isDragging := true; blockHeight := 500 |} in
  let up := updateDragState {| last := 500; drag := 0; from := 500 |} 100 in
  let down := {| last := 600; drag := -400; from := 500 |} in
  blockHeight r - drag up = 0.9 * wH
  /\ blockHeight r - drag down = 0.9 * wH
  /\ between (wH * 0.45) (wH * 0.9) (0.9 * wH) = true
  /\ animateTo wH r up = 900
  /\ animateTo wH r down = 500
  /\ ~ (animateTo wH r up = 0 /\ animateTo wH r down = 0)
  /\ withMinHeightLimit (animateTo wH r up) <> 24.
Proof.
  cbv zeta. repeat split; try reflexivity.
  - intros [H _]. revert H. apply eqb_false_neq; reflexivity.
  - apply eqb_false_neq; reflexivity.
Qed.

(** A release at the upper bound of the top zone, and one at the bound the
    two zones share. *)
Lemma release_at_top_bound (wH : float) (r : Render) (d : DragRef) :
  (wH * 0.45 <? wH * 0.9) = true ->
  blockHeight r - drag d = wH * 0.9 ->
  between (wH * 0.45) (wH * 0.9) (blockHeight r - drag d) = true
  /\ between (wH * 0.05) (wH * 0.45) (blockHeight r - drag d) = false
  /\ animateTo wH r d = if gt (from d - last d) 0 then wH * 0.9 else wH * 0.5.
Proof.
  intros L E.
  assert (T : between (wH * 0.45) (wH * 0.9) (wH * 0.9) = true).
  { apply between_spec. split.
    - apply ltb_leb_true, L.
    - apply (leb_refl_r (wH * 0.45)), ltb_leb_true, L. }
  assert (M : between (wH * 0.05) (wH * 0.45) (wH * 0.9) = false).
  { unfold between. rewrite (ltb_leb_flip _ _ L). apply andb_false_r. }
  unfold animateTo. rewrite E, T, M. simpl.
  repeat split. destruct (gt _ _); reflexivity.
Qed.

Lemma release_at_shared_bound (wH : float) (r : Render) (d : DragRef) :
  (wH * 0.05 <=? wH * 0.45) = true ->
  (wH * 0.45 <=? wH * 0.9) = true ->
  blockHeight r - drag d = wH * 0.45 ->
  between (wH * 0.05) (wH * 0.45) (blockHeight r - drag d) = true
  /\ between (wH * 0.45) (wH * 0.9) (blockHeight r - drag d) = true
  /\ animateTo wH r d = wH * 0.5.
Proof.
  intros L1 L2 E.
  assert (M : between (wH * 0.05) (wH * 0.45) (wH * 0.45) = true).
  { apply between_spec. split; [exact L1|]. apply (leb_refl_r _ _ L1). }
  assert (T : between (wH * 0.45) (wH * 0.9) (wH * 0.45) = true).
  { apply between_spec. split; [|exact L2]. apply (leb_refl_r _ _ L1). }
  unfold animateTo. rewrite E, T, M. simpl.
  repeat split. destruct (gt _ _); reflexivity.
Qed.

(** The zone bounds are in order for every window height from 1 to 8192
    pixels: checked by running the program's own products. *)
Lemma bounds_in_order (n : Z) :
  (1 <= n <= 8192)%Z ->
  (px n * 0.05 <=? px n * 0.45) = true /\ (px n * 0.45 <? px n * 0.9) = true.
Proof.
  intros H.
  assert (A : forallb (fun n => (px n * 0.05 <=? px n * 0.45)
                                && (px n * 0.45 <? px n * 0.9))
                      (map Z.of_nat (seq 1 (Z.to_nat 8192))) = true)
    by (vm_compute; reflexivity).
  rewrite forallb_forall in A. apply andb_true_iff, A.
  apply in_map_iff. exists (Z.to_nat n). split; [lia|]. apply in_seq. lia.
Qed.

(** So on each of these windows a sheet released at exactly [0.9 * wH] is in
    the top zone and never closes. *)
Lemma release_at_top_bound_px (n : Z) (r : Render) (d : DragRef) :
  (1 <= n <= 8192)%Z ->
  blockHeight r - drag d = px n * 0.9 ->
  animateTo (px n) r d
  = if gt (from d - last d) 0 then px n * 0.9 else px n * 0.5.
Proof.
  intros H E. apply release_at_top_bound; [|exact E].
  apply bounds_in_order, H.
Qed.

(** C4, amended.  Both zone tests are closed intervals: middle is
    [0.05 * wH <= h <= 0.45 * wH] and top is
    [0.45 * wH <= h <= 0.9 * wH].  So a release at exactly
    [h = 0.9 * wH] (with [0.45 * wH < 0.9 * wH], a positive viewport
    height) lies in the top zone and not in the middle one, and snaps to
    [0.9 * wH] going up and to [0.5 * wH] otherwise; and at
    [h = 0.45 * wH] both tests hold: going up the middle check, which comes
    first, decides ([0.5 * wH]), and not going up the top zone gives
    [0.5 * wH] too. *)
Theorem zones_are_closed :
  (forall wH h : float,
      (between (wH * 0.05) (wH * 0.45) h = true
       <-> (wH * 0.05 <=? h) = true /\ (h <=? wH * 0.45) = true)
      /\ (between (wH * 0.45) (wH * 0.9) h = true
          <-> (wH * 0.45 <=? h) = true /\ (h <=? wH * 0.9) = true))
  /\ (forall (wH : float) (r : Render) (d : DragRef),
         (wH * 0.45 <? wH * 0.9) = true ->
         blockHeight r - drag d = wH * 0.9 ->
         between (wH * 0.45) (wH * 0.9) (blockHeight r - drag d) = true
         /\ between (wH * 0.05) (wH * 0.45) (blockHeight r - drag d) = false
         /\ animateTo wH r d
            = if gt (from d - last d) 0 then wH * 0.9 else wH * 0.5)
  /\ (forall (wH : float) (r : Render) (d : DragRef),
         (wH * 0.05 <=? wH * 0.45) = true ->
         (wH * 0.45 <=? wH * 0.9) = true ->
         blockHeight r - drag d = wH * 0.45 ->
         between (wH * 0.05) (wH * 0.45) (blockHeight r - drag d) = true
         /\ between (wH * 0.45) (wH * 0.9) (blockHeight r - drag d) = true
         /\ animateTo wH r d = wH * 0.5).
Proof.
  split; [|split].
  - intros wH h. split; apply between_spec.
  - apply release_at_top_bound.
  - apply release_at_shared_bound.
Qed.

Lemma zones_are_closed_witness :
  animateTo 1000 {| isDragging := true; blockHeight := 500 |}
            {| last := 100; drag := -400; from := 500 |}
  = (if gt (500 - 100) 0 then 1000 * 0.9 else 1000 * 0.5)
  /\ animateTo 1000 {| isDragging := false; blockHeight := 450 |}
               {| last := 0; drag := 0; from := 0 |}
     = 1000 * 0.5.
Proof.
  split.
  - apply (proj1 (proj2 zones_are_closed) 1000
             {| isDragging := true; blockHeight := 500 |}
             {| last := 100; drag := -400; from := 500 |}); reflexivity.
  - apply (proj2 (proj2 zones_are_closed) 1000
             {| isDragging := false; blockHeight := 450 |}
             {| last := 0; drag := 0; from := 0 |}); reflexivity.
Defined.

(** *** Pointer-up without a drag *)

(** The sheet is opened to mid-height and its handle clicked; a pointer-up
    on a window of 600px then commits 300 while the registered handlers stay
    those of the render with [blockHeight = 500].  The sheet now rests at
    300, in the middle zone of a 1000px window, with [drag = 0] and
    [from = last], and a further pointer-up commits 500, not 24. *)
Lemma stale_handler_commits_mid :
  let c := run [PointerDown 900; PointerMove 700; PointerUp 1000;
                PointerDown 300; PointerUp 1000; PointerUp 600]
               (mount (Some 24)) in
  state c = {| isDragging := false; blockHeight := 300 |}
  /\ height (style (refs c)) = 300
  /\ dragState (refs c) = {| last := 300; drag := 0; from := 300 |}
  /\ between (1000 * 0.05) (1000 * 0.45) 300 = true
  /\ (300 <? 1000 * 0.45) = true
  /\ listeners c = {| isDragging := false; blockHeight := 500 |}
  /\ blockHeight (state (dispatch (PointerUp 1000) c)) = 500
  /\ blockHeight (state (dispatch (PointerUp 1000) c)) <> 24.
Proof.
  cbv zeta. repeat split. apply eqb_false_neq; reflexivity.
Qed.

(** C10, amended.  The pointer-up handler has no guard on [isDragging]:
    whatever the component is doing, a pointer-up on the document runs
    [animateTo] and commits [blockHeight = max(24, target)], while a
    pointer-move handled without a drag changes nothing.  The target is
    computed from the [blockHeight] of the render that registered the
    handler, and the handlers are registered anew by the release of a
    gesture.  In particular without a drag, with [drag = 0] and
    [from = last] (so that [up] is false), when that [blockHeight] lies in
    the middle zone [0.05 * wH <= h < 0.45 * wH] the pointer-up commits 24;
    so it does when the sheet rests at such a height and the registered
    handlers are those of the current render. *)
Theorem pointer_up_is_unguarded :
  (forall (c : Component) (wH : float),
      let c' := dispatch (PointerUp wH) c in
      blockHeight (state c')
      = Math_max 24 (animateTo wH (listeners c) (dragState (refs c)))
      /\ height (style (refs c')) = blockHeight (state c')
      /\ isDragging (state c') = false
      /\ drag (dragState (refs c')) = 0)
  /\ (forall (c : Component) (y : float),
         isDragging (listeners c) = false -> dispatch (PointerMove y) c = c)
  /\ (forall (c : Component) (wH : float),
         isDragging (state c) = false ->
         isDragging (listeners c) = false ->
         drag (dragState (refs c)) = 0 ->
         from (dragState (refs c)) = last (dragState (refs c)) ->
         (wH * 0.05 <=? blockHeight (listeners c)) = true ->
         (blockHeight (listeners c) <? wH * 0.45) = true ->
         gt (from (dragState (refs c)) - last (dragState (refs c))) 0 = false
         /\ blockHeight (state (dispatch (PointerUp wH) c)) = 24)
  /\ (forall (c : Component) (wH : float),
         isDragging (state c) = true ->
         listeners (dispatch (PointerUp wH) c)
         = state (dispatch (PointerUp wH) c))
  /\ (forall (c : Component) (wH : float),
         isDragging (state c) = false ->
         listeners c = state c ->
         drag (dragState (refs c)) = 0 ->
         from (dragState (refs c)) = last (dragState (refs c)) ->
         (wH * 0.05 <=? blockHeight (state c)) = true ->
         (blockHeight (state c) <? wH * 0.45) = true ->
         blockHeight (state (dispatch (PointerUp wH) c)) = 24).
Proof.
  assert (Stray : forall (c : Component) (wH : float),
             drag (dragState (refs c)) = 0 ->
             from (dragState (refs c)) = last (dragState (refs c)) ->
             (wH * 0.05 <=? blockHeight (listeners c)) = true ->
             (blockHeight (listeners c) <? wH * 0.45) = true ->
             gt (from (dragState (refs c)) - last (dragState (refs c))) 0 = false
             /\ blockHeight (state (dispatch (PointerUp wH) c)) = 24).
  { intros c wH D F Lo Hi.
    assert (U : gt (from (dragState (refs c)) - last (dragState (refs c))) 0
                = false).
    { rewrite F. apply sub_diag_not_pos. }
    split; [exact U|].
    destruct (dispatch_PointerUp c wH) as (S & _). rewrite S. simpl.
    unfold animateTo. rewrite U, D, sub_0_r.
    rewrite !andb_false_r. unfold between at 1, ge.
    rewrite (ltb_leb_flip _ _ Hi). reflexivity. }
  split; [|split; [|split; [|split]]].
  - intros c wH c'. repeat split.
  - apply dispatch_PointerMove_idle.
  - intros c wH _ _. apply Stray.
  - intros c wH. destruct c as [[sd sh] l m]. simpl. intros ->. reflexivity.
  - intros c wH _ L D F Lo Hi. rewrite <- L in Lo, Hi.
    apply (Stray c wH D F Lo Hi).
Qed.

Lemma pointer_up_is_unguarded_witness :
  let c := run [PointerDown 300; PointerMove 250; PointerUp 400;
                PointerDown 310; PointerUp 400] (mount (Some 24)) in
  state c = {| isDragging := false; blockHeight := 200 |}
  /\ blockHeight (state (dispatch (PointerUp 1000) c)) = 24.
Proof.
  split; [reflexivity|].
  apply (proj2 (proj2 (proj2 (proj2 pointer_up_is_unguarded)))
           (run [PointerDown 300; PointerMove 250; PointerUp 400;
                 PointerDown 310; PointerUp 400] (mount (Some 24)))
           1000); reflexivity.
Defined.

End SheetFacts.

(** ** The scroll lock *)

Section LockFacts.

Import Js PreventScroll.
Local Open Scope float_scope.

Example isIOS_iPhone : isIOS Samples.iPhone = true.
Proof. reflexivity. Qed.
Example isIOS_iPadOS : isIOS Samples.iPadOS = true.
Proof. reflexivity. Qed.
Example isIOS_desktop : isIOS Samples.desktop = false.
Proof. reflexivity. Qed.
Example scroll_parent_of_item :
  getScrollParent Samples.page Samples.item = Samples.scroller.
Proof. reflexivity. Qed.
Example scroll_parent_of_div :
  getScrollParent Samples.page Samples.div = Samples.html.
Proof. reflexivity. Qed.

(** The lock on a phone, on the sample page: the padding makes up for the
    15px scrollbar, the window is scrolled to the top and one closure
    listens; a touch that starts on the [div] has its move prevented.  After
    the deactivation the padding and the scroll offset are back and nothing
    listens any more. *)
Example lock_on_phone :
  exists w1 w2 : World,
    steps [Activate Samples.iPhone] Samples.loaded = Some w1
    /\ paddingRight (dom w1) = css_px 15
    /\ (scrollX (dom w1), scrollY (dom w1)) = (0, 0)
    /\ touchListeners (dom w1) = [(0%nat, {| scrollable := None; lastY := 0 |})]
    /\ snd (dispatchTouch touchmove {| target := Samples.div; pageY := 180 |}
              (fst (dispatchTouch touchstart
                      {| target := Samples.div; pageY := 200 |} (dom w1))))
       = true
    /\ steps [Deactivate] w1 = Some w2
    /\ paddingRight (dom w2) = css_text ""
    /\ (scrollX (dom w2), scrollY (dom w2)) = (0, 120)
    /\ touchListeners (dom w2) = [].
Proof. eexists. eexists. repeat split. Qed.

(** On a desktop browser only the padding changes, and no touch event is
    intercepted. *)
Example lock_on_desktop :
  exists w1 : World,
    steps [Activate Samples.desktop] Samples.loaded = Some w1
    /\ paddingRight (dom w1) = css_px 15
    /\ scrollY (dom w1) = 120
    /\ touchListeners (dom w1) = []
    /\ snd (dispatchTouch touchmove {| target := Samples.div; pageY := 180 |}
              (dom w1)) = false.
Proof. eexists. repeat split. Qed.

(** *** The request counter *)

Lemma effect_disabled (nav : option Navigator) (w : World) :
  effect nav true w = (w, false).
Proof. reflexivity. Qed.

Lemma effect_first (nav : option Navigator) (w : World) :
  preventScrollCount w = 0%Z ->
  effect nav false w
  = ({| preventScrollCount := 1;
        restore := Some (snd (applyStrategy (chosenStrategy nav) (dom w)));
        dom := fst (applyStrategy (chosenStrategy nav) (dom w));
        trace := trace w ++ [Applied (chosenStrategy nav)] |}, true).
Proof.
  intros Z. unfold effect, chosenStrategy. rewrite Z. simpl.
  destruct (isIOS nav); reflexivity.
Qed.

Lemma effect_later (nav : option Navigator) (w : World) :
  preventScrollCount w <> 0%Z ->
  effect nav false w
  = ({| preventScrollCount := preventScrollCount w + 1;
        restore := restore w; dom := dom w; trace := trace w |}, true).
Proof.
  intros Z. unfold effect.
  destruct (Z.eqb_spec (preventScrollCount w + 1) 1) as [E|E]; [lia|].
  reflexivity.
Qed.

Lemma cleanup_last (w : World) (r : Restore) :
  preventScrollCount w = 1%Z -> restore w = Some r ->
  cleanup w
  = Some {| preventScrollCount := 0; restore := Some r;
            dom := runRestore r (dom w); trace := trace w ++ [Restored] |}.
Proof. intros Z R. unfold cleanup. rewrite Z, R. reflexivity. Qed.

Lemma cleanup_earlier (w : World) :
  preventScrollCount w <> 1%Z ->
  cleanup w
  = Some {| preventScrollCount := preventScrollCount w - 1;
            restore := restore w; dom := dom w; trace := trace w |}.
Proof.
  intros Z. unfold cleanup.
  destruct (Z.eqb_spec (preventScrollCount w - 1) 0) as [E|E]; [lia|].
  reflexivity.
Qed.

(** Counting in a trace that grew by one action. *)
Ltac count_trace :=
  unfold restoreRuns, applied; simpl;
  rewrite ?filter_app, ?flat_map_app, ?length_app; simpl;
  rewrite ?app_nil_r, ?Nat.add_0_r, ?Nat.add_1_r.

Lemma steps_app (xs ys : list Op) (w : World) :
  steps (xs ++ ys) w
  = match steps xs w with
    | Some w' => steps ys w'
    | None => None
    end.
Proof.
  revert w. induction xs as [|x xs IH]; intros w; [reflexivity|].
  simpl. destruct (step x w); [apply IH | reflexivity].
Qed.

(** Requests that start and end while the lock is already held leave
    everything as it was. *)
Lemma nested_requests (navs : list (option Navigator)) (w : World) :
  (0 < preventScrollCount w)%Z ->
  steps (map Activate navs ++ repeat Deactivate (List.length navs)) w = Some w.
Proof.
  revert w. induction navs as [|nav navs IH]; intros w P; [reflexivity|].
  change (List.length (nav :: navs)) with (S (List.length navs)).
  change (repeat Deactivate (S (List.length navs)))
    with (Deactivate :: repeat Deactivate (List.length navs)).
  rewrite repeat_cons, app_assoc.
  change (map Activate (nav :: navs)) with (Activate nav :: map Activate navs).
  rewrite <- app_comm_cons, steps_app.
  change (steps (Activate nav :: ?l) w)
    with (steps l (fst (effect nav false w))).
  rewrite effect_later by lia. simpl fst.
  rewrite IH by (simpl; lia). simpl.
  rewrite cleanup_earlier by (simpl; lia). simpl.
  destruct w as [n r d t]. simpl. do 2 f_equal. lia.
Qed.

(** C5. From an idle lock, two activations followed by one deactivation
    leave the counter at 1 and the lock ACTIVE, with nothing restored; the
    second deactivation brings the counter to 0 and calls the stored
    closure, the only call of the episode.  The strategy is chosen at the
    first activation alone: a request made while the counter is positive
    applies no strategy and keeps the stored closure, and a deactivation
    that leaves the counter positive restores nothing.  The same holds for
    any number of nested requests. *)
Theorem two_requests_one_restore :
  (forall (w : World) (nav1 nav2 : option Navigator),
      preventScrollCount w = 0%Z ->
      let w1 := fst (effect nav1 false w) in
      let w2 := fst (effect nav2 false w1) in
      exists (r : Restore) (w3 w4 : World),
        cleanup w2 = Some w3 /\ cleanup w3 = Some w4
        /\ (dom w1, r) = applyStrategy (chosenStrategy nav1) (dom w)
        /\ applied w1 = applied w ++ [chosenStrategy nav1]
        /\ restore w1 = Some r
        /\ (preventScrollCount w2 = 2%Z /\ restore w2 = Some r
            /\ dom w2 = dom w1 /\ trace w2 = trace w1)
        /\ (preventScrollCount w3 = 1%Z /\ lockState w3 = ACTIVE
            /\ restore w3 = Some r /\ dom w3 = dom w1
            /\ restoreRuns w3 = restoreRuns w)
        /\ (preventScrollCount w4 = 0%Z /\ lockState w4 = INACTIVE
            /\ dom w4 = runRestore r (dom w1)
            /\ restoreRuns w4 = S (restoreRuns w)
            /\ applied w4 = applied w1))
  /\ (forall (w : World) (nav : option Navigator),
         (0 < preventScrollCount w)%Z ->
         let w' := fst (effect nav false w) in
         restore w' = restore w /\ dom w' = dom w /\ trace w' = trace w)
  /\ (forall w : World,
         (1 < preventScrollCount w)%Z ->
         exists w', cleanup w = Some w'
                    /\ restore w' = restore w /\ dom w' = dom w
                    /\ trace w' = trace w /\ lockState w' = ACTIVE)
  /\ (forall (w : World) (nav : option Navigator)
             (navs : list (option Navigator)),
         preventScrollCount w = 0%Z ->
         let requests :=
           Activate nav :: map Activate navs
           ++ repeat Deactivate (List.length navs) in
         exists w1 w2 : World,
           steps requests w = Some w1 /\ lockState w1 = ACTIVE
           /\ restoreRuns w1 = restoreRuns w
           /\ steps (requests ++ [Deactivate]) w = Some w2
           /\ lockState w2 = INACTIVE
           /\ restoreRuns w2 = S (restoreRuns w)
           /\ applied w2 = applied w ++ [chosenStrategy nav]).
Proof.
  split; [|split; [|split]].
  - intros w nav1 nav2 Z w1 w2.
    unfold w2, w1. clear w1 w2. rewrite (effect_first nav1 w Z). simpl fst.
    destruct w as [n r0 d t]. simpl in *.
    destruct (applyStrategy (chosenStrategy nav1) d) as [d1 r] eqn:A.
    exists r. eexists. eexists.
    split; [rewrite cleanup_earlier by (simpl; lia); reflexivity|].
    split; [apply cleanup_last; reflexivity|].
    count_trace. repeat split; reflexivity.
  - intros w nav P w'. unfold w'. rewrite effect_later by lia.
    repeat split.
  - intros w P. rewrite cleanup_earlier by lia. eexists. split; [reflexivity|].
    simpl. repeat split. unfold lockState. simpl.
    destruct (Z.eqb_spec (preventScrollCount w - 1) 0); [lia | reflexivity].
  - intros w nav navs Z requests.
    assert (R : steps requests w = Some (fst (effect nav false w))).
    { unfold requests.
      change (steps (Activate nav :: ?l) w)
        with (steps l (fst (effect nav false w))).
      apply nested_requests. rewrite effect_first by exact Z. simpl. lia. }
    rewrite steps_app, R. clear R requests.
    rewrite effect_first by exact Z. simpl fst.
    eexists. eexists. split; [reflexivity|].
    split; [reflexivity|]. split; [count_trace; reflexivity|].
    split; [reflexivity|]. count_trace. repeat split; reflexivity.
Qed.

Lemma two_requests_one_restore_witness :
  exists w1 w2 : World,
    steps [Activate Samples.iPhone; Activate Samples.desktop; Deactivate]
          Samples.loaded = Some w1
    /\ lockState w1 = ACTIVE
    /\ restoreRuns w1 = 0%nat
    /\ steps ([Activate Samples.iPhone; Activate Samples.desktop; Deactivate]
              ++ [Deactivate]) Samples.loaded = Some w2
    /\ lockState w2 = INACTIVE
    /\ restoreRuns w2 = 1%nat
    /\ applied w2 = [TouchInterception].
Proof.
  apply (proj2 (proj2 (proj2 two_requests_one_restore)) Samples.loaded
           Samples.iPhone [Samples.desktop]).
  reflexivity.
Defined.

(** After one activation and its deactivation on the sample page the
    counter is back at 0 and [restore] still holds the closure. *)
Lemma restore_stays_stored :
  exists w : World,
    steps [Activate Samples.desktop; Deactivate] Samples.loaded = Some w
    /\ preventScrollCount w = 0%Z
    /\ restore w = Some (restoreStandard (css_text ""))
    /\ restore w <> None.
Proof.
  eexists. split; [reflexivity|]. repeat split. discriminate.
Qed.

(** C6, amended.  The stored closure is assigned exactly when the counter
    goes from 0 to 1 and is called exactly when it goes from 1 to 0; a
    deactivation never clears it, so it is still stored after the
    last one. *)
Theorem restore_assigned_and_called :
  (forall (nav : option Navigator) (w : World),
      let w' := fst (effect nav false w) in
      preventScrollCount w' = (preventScrollCount w + 1)%Z
      /\ (preventScrollCount w = 0%Z ->
          restore w' = Some (snd (applyStrategy (chosenStrategy nav) (dom w)))
          /\ trace w' = trace w ++ [Applied (chosenStrategy nav)])
      /\ (preventScrollCount w <> 0%Z ->
          restore w' = restore w /\ trace w' = trace w))
  /\ (forall (w : World) (r : Restore),
         restore w = Some r ->
         exists w' : World,
           cleanup w = Some w'
           /\ preventScrollCount w' = (preventScrollCount w - 1)%Z
           /\ restore w' = Some r
           /\ (preventScrollCount w = 1%Z ->
               dom w' = runRestore r (dom w)
               /\ trace w' = trace w ++ [Restored])
           /\ (preventScrollCount w <> 1%Z ->
               dom w' = dom w /\ trace w' = trace w)).
Proof.
  split.
  - intros nav w w'. unfold w'.
    destruct (Z.eq_dec (preventScrollCount w) 0) as [Z|Z].
    + rewrite effect_first by exact Z. simpl. rewrite Z.
      repeat split; try reflexivity; intros; congruence.
    + rewrite effect_later by exact Z. simpl.
      repeat split; try reflexivity; intros; congruence.
  - intros w r R.
    destruct (Z.eq_dec (preventScrollCount w) 1) as [Z|Z].
    + rewrite (cleanup_last w r Z R). eexists. split; [reflexivity|].
      simpl. rewrite Z. repeat split; try reflexivity; intros; congruence.
    + rewrite (cleanup_earlier w Z). eexists. split; [reflexivity|].
      simpl. repeat split; try assumption; try reflexivity; intros; congruence.
Qed.

Lemma restore_assigned_and_called_witness :
  exists w' : World,
    cleanup (fst (effect Samples.desktop false Samples.loaded)) = Some w'
    /\ preventScrollCount w' = (1 - 1)%Z
    /\ restore w' = Some (restoreStandard (css_text "")).
Proof.
  destruct (proj2 restore_assigned_and_called
              (fst (effect Samples.desktop false Samples.loaded))
              (restoreStandard (css_text "")) eq_refl)
    as (w' & C & N & R & _).
  exists w'. repeat split; assumption.
Defined.

(** *** Touch moves *)

(** C7. With the touch handlers installed, a touch-move is always
    prevented when no scrollable ancestor was recorded or when the recorded
    one is the document root (the document element or the body); it is
    never prevented when the recorded ancestor is a nested one scrolled
    strictly between its top and its bottom, nor when that nested
    ancestor's [scrollHeight] equals its [clientHeight] (a finite length,
    as every length of the page is). *)
Theorem touch_move_prevention :
  (forall (d : Dom) (e : TouchEvent) (st : Touch),
      scrollable st = None -> onTouchMove d e st = (st, true))
  /\ (forall (d : Dom) (e : TouchEvent) (st : Touch) (s : Element),
         scrollable st = Some s ->
         isDocumentRoot d s = true ->
         onTouchMove d e st = (st, true))
  /\ (forall (d : Dom) (e : TouchEvent) (st : Touch) (s : Element),
         scrollable st = Some s ->
         isDocumentRoot d s = false ->
         (0 <? scrollTop (metrics d (id s))) = true ->
         (scrollTop (metrics d (id s))
          <? scrollHeight (metrics d (id s)) - clientHeight (metrics d (id s)))
         = true ->
         snd (onTouchMove d e st) = false)
  /\ (forall (d : Dom) (e : TouchEvent) (st : Touch) (s : Element),
         scrollable st = Some s ->
         isDocumentRoot d s = false ->
         scrollHeight (metrics d (id s)) = clientHeight (metrics d (id s)) ->
         is_finite (scrollHeight (metrics d (id s))) = true ->
         onTouchMove d e st = (st, false)).
Proof.
  unfold isDocumentRoot. split; [|split; [|split]].
  - intros d e st N. unfold onTouchMove. rewrite N. reflexivity.
  - intros d e st s S R. unfold onTouchMove. rewrite S, R. reflexivity.
  - intros d e st s S R Top Bottom. unfold onTouchMove. rewrite S, R.
    destruct (_ =? 0); [reflexivity|]. simpl. unfold ge.
    rewrite (ltb_leb_flip _ _ Top), (ltb_leb_flip _ _ Bottom). reflexivity.
  - intros d e st s S R E F. unfold onTouchMove. rewrite S, R, <- E.
    rewrite (is_finite_sub_diag _ F). reflexivity.
Qed.

Lemma touch_move_prevention_witness :
  snd (onTouchMove Samples.page {| target := Samples.item; pageY := 180 |}
         {| scrollable := Some Samples.scroller; lastY := 200 |}) = false
  /\ onTouchMove Samples.page {| target := Samples.div; pageY := 180 |}
       {| scrollable := Some Samples.html; lastY := 200 |}
     = ({| scrollable := Some Samples.html; lastY := 200 |}, true).
Proof.
  split.
  - apply (proj1 (proj2 (proj2 touch_move_prevention)) Samples.page
             {| target := Samples.item; pageY := 180 |}
             {| scrollable := Some Samples.scroller; lastY := 200 |}
             Samples.scroller); reflexivity.
  - apply (proj1 (proj2 touch_move_prevention) Samples.page
             {| target := Samples.div; pageY := 180 |}
             {| scrollable := Some Samples.html; lastY := 200 |}
             Samples.html); reflexivity.
Defined.

(** On the sample page a touch that starts on the [div] resolves to the
    document element; the start position is recorded all the same, and both
    touch-moves that follow are prevented. *)
Lemma root_touch_is_prevented :
  let start := {| target := Samples.div; pageY := 200 |} in
  let st := onTouchStart Samples.page start {| scrollable := None; lastY := 0 |} in
  let moves := [(Samples.page, {| target := Samples.div; pageY := 180 |});
                (Samples.page, {| target := Samples.div; pageY := 160 |})] in
  getScrollParent Samples.page (target start) = documentElement Samples.page
  /\ lastY st = 200
  /\ snd (onTouchMoves moves st) = [true; true]
  /\ ~ Forall (fun p => p = false) (snd (onTouchMoves moves st)).
Proof.
  cbv zeta. repeat split. intros F. inversion F. discriminate.
Qed.

Lemma onTouchMoves_root (moves : list (Dom * TouchEvent)) (st : Touch)
      (s : Element) :
  scrollable st = Some s ->
  Forall (fun m => isDocumentRoot (fst m) s = true) moves ->
  onTouchMoves moves st = (st, repeat true (List.length moves)).
Proof.
  intros S. induction 1 as [|[d e] moves R _ IH]; [reflexivity|].
  simpl in *. unfold onTouchMove, isDocumentRoot in *. rewrite S, R, IH.
  reflexivity.
Qed.

(** C9, amended.  Touch-start records the scrollable ancestor the touched
    target resolves to; when that is the document root, and stays so for
    the pages the touch-moves of the sequence arrive on, every one of these
    touch-moves has its default prevented. *)
Theorem root_touch_sequence :
  forall (d : Dom) (e : TouchEvent) (st : Touch)
         (moves : list (Dom * TouchEvent)),
    let st1 := onTouchStart d e st in
    scrollable st1 = Some (getScrollParent d (target e))
    /\ (isDocumentRoot d (getScrollParent d (target e)) = true ->
        Forall (fun m => documentElement (fst m) = documentElement d
                         /\ body (fst m) = body d) moves ->
        snd (onTouchMoves moves st1) = repeat true (List.length moves)
        /\ Forall (fun p => p = true) (snd (onTouchMoves moves st1))).
Proof.
  intros d e st moves st1.
  assert (S : scrollable st1 = Some (getScrollParent d (target e))).
  { unfold st1, onTouchStart. destruct (_ && _); reflexivity. }
  split; [exact S|]. intros R Same.
  rewrite (onTouchMoves_root moves st1 _ S).
  - split; [reflexivity|]. simpl. clear. induction moves; simpl; auto.
  - eapply Forall_impl; [|exact Same]. intros [d' e'] [E1 E2].
    unfold isDocumentRoot in *. simpl in *. rewrite E1, E2. exact R.
Qed.

Lemma root_touch_sequence_witness :
  snd (onTouchMoves
         [(Samples.page, {| target := Samples.div; pageY := 180 |})]
         (onTouchStart Samples.page {| target := Samples.div; pageY := 200 |}
            {| scrollable := None; lastY := 0 |}))
  = repeat true 1.
Proof.
  apply (proj2 (root_touch_sequence Samples.page
                  {| target := Samples.div; pageY := 200 |}
                  {| scrollable := None; lastY := 0 |}
                  [(Samples.page, {| target := Samples.div; pageY := 180 |})])).
  - reflexivity.
  - repeat constructor.
Defined.

(** *** Touch end *)





(** The workaround on a disabled text input of the sample page: the
    touch-end is prevented and the input moved away, but [focus()] leaves the
    body the active element. *)
Example touch_end_on_disabled_input :
  let r := onTouchEnd {| target := Samples.disabledInput; pageY := 300 |}
                      Samples.page in
  snd r = true
  /\ transform (fst r) 6 = "translateY(-2000px)"%string
  /\ activeElement (fst r) = Some Samples.bodyElement.
Proof. repeat split. Qed.



End LockFacts.

(** * Further facts

    ** The height floor *)

Section FloorFacts.

Import Js BottomSheet.
Local Open Scope float_scope.

Lemma ltb_asym x y : (x <? y) = true -> (y <? x) = false.
Proof.
  rewrite !ltb_spec. unfold SFltb.
  rewrite (SFcompare_flip (Prim2SF x) (Prim2SF y)).
  destruct (SFcompare (Prim2SF x) (Prim2SF y)) as [[]|]; easy.
Qed.

Lemma ltb_irrefl x : (x <? x) = false.
Proof.
  destruct (x <? x) eqn:E; [|reflexivity].
  rewrite (ltb_asym _ _ E) in E. discriminate.
Qed.

(** [withMinHeightLimit] on a number: the larger of 24 and the value. *)
Lemma withMinHeightLimit_cases (val : float) :
  withMinHeightLimit val
  = if is_nan val then nan else if 24 <? val then val else 24.
Proof.
  unfold withMinHeightLimit, Math_max, MIN_BS_HEIGHT.
  change (is_nan 24) with false. simpl orb.
  destruct (is_nan val); [reflexivity|].
  change (max_step neg_infinity 24) with 24.
  unfold max_step. change (is_zero 24) with false.
  rewrite andb_false_r. reflexivity.
Qed.

Lemma withMinHeightLimit_floor (val : float) :
  (withMinHeightLimit val <? 24) = false.
Proof.
  rewrite withMinHeightLimit_cases.
  destruct (is_nan val); [reflexivity|].
  destruct (24 <? val) eqn:E; [apply ltb_asym, E | reflexivity].
Qed.

End FloorFacts.

(** ** Invariants of the drag controller *)

Section SheetInvariants.

Import Js BottomSheet.
Local Open Scope float_scope.

Lemma run_cons (e : Event) (evs : list Event) (c : Component) :
  run (e :: evs) c = run evs (dispatch e c).
Proof. reflexivity. Qed.

Lemma run_invariant (P : Component -> Prop) :
  (forall e c, P c -> P (dispatch e c)) ->
  forall evs c, P c -> P (run evs c).
Proof.
  intros Step evs. induction evs as [|e evs IH]; intros c H; [exact H|].
  rewrite run_cons. apply IH, Step, H.
Qed.

Lemma height_of_dispatch (e : Event) (c : Component) :
  height (style (refs (dispatch e c))) = height (style (refs c))
  \/ exists v, height (style (refs (dispatch e c))) = withMinHeightLimit v.
Proof.
  destruct e as [y|y|wH]; simpl.
  - left. reflexivity.
  - unfold handleOnMove. destruct (negb _); [left; reflexivity|].
    right. eexists. reflexivity.
  - right. eexists. reflexivity.
Qed.

(** X1. From mounting on, whatever pointer events arrive (any coordinates,
    any window heights), the height written to the sheet element is never
    below 24, and the committed [blockHeight] is either still the height
    measured at mount or not below 24. *)
Theorem height_never_below_floor :
  forall (rect : option float) (evs : list Event),
    let c := run evs (mount rect) in
    (height (style (refs c)) <? 24) = false
    /\ (blockHeight (state c) = orElse rect 0
        \/ (blockHeight (state c) <? 24) = false).
Proof.
  intros rect evs.
  apply (run_invariant
           (fun c => (height (style (refs c)) <? 24) = false
                     /\ (blockHeight (state c) = orElse rect 0
                         \/ (blockHeight (state c) <? 24) = false))).
  - intros e c [H B]. split.
    + destruct (height_of_dispatch e c) as [E|[v E]]; rewrite E;
        [exact H | apply withMinHeightLimit_floor].
    + destruct e as [y|y|wH]; simpl; try exact B.
      right. apply withMinHeightLimit_floor.
  - split; [reflexivity | left; reflexivity].
Qed.

(** X2. Outside a gesture the accumulated drag is 0: in every state the
    mounted component can reach, [isDragging = false] implies [drag = 0],
    so each gesture starts from the committed height. *)
Theorem drag_is_zero_outside_gestures :
  forall (rect : option float) (evs : list Event),
    let c := run evs (mount rect) in
    isDragging (state c) = false -> drag (dragState (refs c)) = 0.
Proof.
  intros rect evs c.
  enough (H : listeners_current c
              /\ (isDragging (state c) = false -> drag (dragState (refs c)) = 0))
    by apply H.
  unfold c. apply (run_invariant
    (fun c => listeners_current c
              /\ (isDragging (state c) = false
                  -> drag (dragState (refs c)) = 0))).
  - intros e c0 [L Z]. split; [apply listeners_current_dispatch, L|].
    destruct e as [y|y|wH].
    + simpl. discriminate.
    + intros D. assert (D0 : isDragging (state c0) = false).
      { revert D. destruct c0 as [[sd sh] l m]. simpl. destruct sd; auto. }
      rewrite dispatch_PointerMove_idle; [exact (Z D0)|].
      destruct L as [L _]. congruence.
    + reflexivity.
  - split; [apply listeners_current_mount | reflexivity].
Qed.

Lemma drag_is_zero_outside_gestures_witness :
  drag (dragState (refs (run [PointerDown 900; PointerMove 700; PointerUp 1000]
                             (mount (Some 24))))) = 0.
Proof.
  apply (drag_is_zero_outside_gestures (Some 24)
           [PointerDown 900; PointerMove 700; PointerUp 1000]).
  reflexivity.
Defined.

Lemma moves_set_last (ys : list float) (y : float) (c : Component) :
  isDragging (listeners c) = true ->
  let c' := run (map PointerMove (ys ++ [y])) c in
  last (dragState (refs c')) = y
  /\ from (dragState (refs c')) = from (dragState (refs c))
  /\ state c' = state c /\ listeners c' = listeners c.
Proof.
  intros D c'. unfold c'. clear c'. rewrite map_app, run_app.
  change (run (map PointerMove [y]) ?x) with (dispatch (PointerMove y) x).
  destruct (moves_keep_state ys c D) as [S L].
  assert (F : from (dragState (refs (run (map PointerMove ys) c)))
              = from (dragState (refs c))).
  { clear S L. revert c D. induction ys as [|z ys IH]; intros c D; [reflexivity|].
    change (run (map PointerMove (z :: ys)) c)
      with (run (map PointerMove ys) (dispatch (PointerMove z) c)).
    pose proof (dispatch_PointerMove c z D) as E. cbv zeta in E.
    rewrite IH; rewrite E; [reflexivity | exact D]. }
  rewrite dispatch_PointerMove by (rewrite L; exact D).
  simpl. rewrite F, S, L. repeat split.
Qed.

(** X3. A gesture's direction is decided by its two ends only: from any
    reachable state, after a pointer-down at [y0] and any pointer-moves the
    last of which is at [y], the drag is active with [from = y0] and
    [last = y], so the release goes up exactly when [y0 - y > 0], whatever
    path the pointer took in between. *)
Theorem gesture_direction_from_endpoints :
  forall (rect : option float) (evs : list Event)
         (y0 : float) (ys : list float) (y : float),
    let c := run (evs ++ PointerDown y0 :: map PointerMove (ys ++ [y]))
                 (mount rect) in
    isDragging (state c) = true
    /\ from (dragState (refs c)) = y0
    /\ last (dragState (refs c)) = y
    /\ gt (from (dragState (refs c)) - last (dragState (refs c))) 0
       = (0 <? y0 - y).
Proof.
  intros rect evs y0 ys y c. unfold c. rewrite run_app, run_cons.
  set (c0 := run evs (mount rect)).
  assert (L : listeners_current (dispatch (PointerDown y0) c0))
    by apply listeners_current_dispatch, listeners_current_run,
             listeners_current_mount.
  assert (D : isDragging (state (dispatch (PointerDown y0) c0)) = true)
    by reflexivity.
  destruct L as [LD _]. rewrite D in LD.
  destruct (moves_set_last ys y _ LD) as (La & Fr & St & _).
  rewrite La, Fr, St. repeat split.
Qed.

End SheetInvariants.

(** ** Scroll parents and the two strategies *)

Section StrategyFacts.

Import Js PreventScroll ScrollParents Layout.
Local Open Scope float_scope.

Lemma climb_find (node : Element) :
  climb node = find isScrollable (node :: ancestors node).
Proof.
  induction node as [i c b o ox oy | i c b o ox oy p IH]
    using Element_chain_ind.
  - simpl. destruct (_ || _); reflexivity.
  - change (climb (mkElement i c b o ox oy (Some p)))
      with (if isScrollable (mkElement i c b o ox oy (Some p))
            then Some (mkElement i c b o ox oy (Some p)) else climb p).
    rewrite IH. reflexivity.
Qed.

(** X4. [getScrollParent] returns the nearest scrollable strict ancestor
    of the node, and the document's scrolling element (or, without one, the
    document element) when no strict ancestor is scrollable; the node itself
    is never looked at as a candidate, scrollable or not. *)
Theorem getScrollParent_nearest :
  forall (d : Dom) (node : Element),
    getScrollParent d node
    = match find isScrollable (ancestors node) with
      | Some a => a
      | None => documentScroller d
      end.
Proof.
  intros d node. unfold getScrollParent, documentScroller.
  destruct (isScrollable node) eqn:S.
  - clear S. destruct node as [i c b o ox oy [p|]];
      unfold parentElement; [rewrite climb_find|]; reflexivity.
  - rewrite climb_find. simpl find. rewrite S. reflexivity.
Qed.

Lemma dom_eta (d : Dom) :
  mkDom (documentElement d) (body d) (scrollingElement d) (activeElement d)
        (metrics d) (transform d) (paddingRight d) (innerWidth d)
        (clientWidth d) (scrollX d) (scrollY d) (touchListeners d)
        (nextKey d) (frames d) (canFocus d) = d.
Proof. destruct d; reflexivity. Qed.

Lemma assign_assign (cur v : css) (d : Dom) :
  acceptsPadding cur = true ->
  paddingRight d = cur ->
  assign_paddingRight cur (assign_paddingRight v d) = d.
Proof.
  intros A <-. unfold assign_paddingRight. rewrite A.
  destruct (acceptsPadding v); destruct d; reflexivity.
Qed.

Lemma dispatchTouch_quiet (ty : TouchType) (e : TouchEvent) (d : Dom) :
  touchListeners d = [] -> snd (dispatchTouch ty e d) = false.
Proof. intros L. unfold dispatchTouch. rewrite L. reflexivity. Qed.

(** X5. The standard strategy sets the right padding of the document
    element to [innerWidth - clientWidth] px when that is not negative, and
    leaves the padding as it is otherwise; it installs no listener, so on a
    page where nothing listens to touches no handler prevents a touch event
    while it is applied.  The closure it returns puts the saved padding back
    and changes nothing else on whatever page it is called; called at once,
    it gives back the page exactly as it was. *)
Theorem standard_strategy_round_trip :
  forall d : Dom,
    acceptsPadding (paddingRight d) = true ->
    let d1 := fst (standardPreventScroll d) in
    let r := snd (standardPreventScroll d) in
    paddingRight d1
    = (if (0 <=? innerWidth d - clientWidth d)%Z
       then css_px (innerWidth d - clientWidth d) else paddingRight d)
    /\ touchListeners d1 = touchListeners d
    /\ (touchListeners d = [] ->
        forall ty e, snd (dispatchTouch ty e d1) = false)
    /\ (forall d' : Dom, runRestore r d' = set_paddingRight (paddingRight d) d')
    /\ runRestore r d1 = d.
Proof.
  intros d A d1 r. unfold d1, r, standardPreventScroll. simpl.
  assert (L : touchListeners
                (assign_paddingRight (css_px (innerWidth d - clientWidth d)) d)
              = touchListeners d).
  { unfold assign_paddingRight.
    destruct (acceptsPadding (css_px (innerWidth d - clientWidth d)));
      reflexivity. }
  split; [|split; [exact L|split; [|split]]].
  - unfold assign_paddingRight. simpl.
    destruct (0 <=? innerWidth d - clientWidth d)%Z; reflexivity.
  - intros E ty e. apply dispatchTouch_quiet. rewrite L. exact E.
  - intros d'. unfold assign_paddingRight. rewrite A. reflexivity.
  - apply assign_assign; [exact A | reflexivity].
Qed.

Lemma standard_strategy_round_trip_witness :
  runRestore (snd (standardPreventScroll Samples.page))
             (fst (standardPreventScroll Samples.page))
  = Samples.page.
Proof.
  apply (standard_strategy_round_trip Samples.page). reflexivity.
Defined.

Lemma onTouchEnd_keeps (e : TouchEvent) (d : Dom) :
  layoutOf (fst (onTouchEnd e d)) = layoutOf d
  /\ nextKey (fst (onTouchEnd e d)) = nextKey d.
Proof.
  unfold onTouchEnd, focus. destruct (_ && _); [|split; reflexivity].
  simpl. destruct (canFocus d (id (target e))); split; reflexivity.
Qed.

Lemma dispatchTo_keeps (ty : TouchType) (e : TouchEvent)
      (installed : list (nat * Touch)) (d : Dom) :
  map fst (fst (fst (dispatchTo ty e installed d))) = map fst installed
  /\ layoutOf (snd (fst (dispatchTo ty e installed d))) = layoutOf d
  /\ nextKey (snd (fst (dispatchTo ty e installed d))) = nextKey d.
Proof.
  revert d. induction installed as [|[k st] rest IH]; intros d;
    [repeat split|].
  simpl.
  assert (H : layoutOf (snd (fst (handleTouch ty e st d))) = layoutOf d
              /\ nextKey (snd (fst (handleTouch ty e st d))) = nextKey d).
  { destruct ty; simpl.
    - split; reflexivity.
    - destruct (onTouchMove d e st). split; reflexivity.
    - pose proof (onTouchEnd_keeps e d) as K.
      destruct (onTouchEnd e d). exact K. }
  destruct (handleTouch ty e st d) as [[st' d1] p]. simpl in H.
  specialize (IH d1). destruct (dispatchTo ty e rest d1) as [[rest' d2] q].
  simpl in *. destruct IH as (I1 & I2 & I3), H as [H1 H2].
  rewrite I1, I2, I3, H1, H2. repeat split.
Qed.

(** The handlers write neither the padding nor the scroll offsets, and
    never install or remove a closure. *)
Lemma dispatchTouch_keeps (ty : TouchType) (e : TouchEvent) (d : Dom) :
  keysOf (fst (dispatchTouch ty e d)) = keysOf d
  /\ layoutOf (fst (dispatchTouch ty e d)) = layoutOf d.
Proof.
  unfold dispatchTouch.
  pose proof (dispatchTo_keeps ty e (touchListeners d) d) as K.
  destruct (dispatchTo ty e (touchListeners d) d) as [[l d1] p]. simpl in *.
  destruct K as (K1 & K2 & _). unfold keysOf. simpl. split; assumption.
Qed.

Lemma filter_keys (k : nat) (l : list (nat * Touch)) :
  map fst (filter (fun kl => negb (Nat.eqb (fst kl) k)) l)
  = filter (fun x => negb (Nat.eqb x k)) (map fst l).
Proof.
  induction l as [|[x st] l IH]; [reflexivity|].
  simpl. destruct (Nat.eqb x k); simpl; rewrite IH; reflexivity.
Qed.

Lemma filter_fresh (k : nat) (l : list nat) :
  Forall (fun x => x < k) l ->
  filter (fun x => negb (Nat.eqb x k)) (l ++ [k]) = l.
Proof.
  induction 1 as [|x l H _ IH]; simpl.
  - rewrite Nat.eqb_refl. reflexivity.
  - destruct (Nat.eqb_spec x k); [lia|]. simpl. rewrite IH. reflexivity.
Qed.

(** X6. The touch strategy, on a page whose installed closures carry older
    keys: it sets the padding as the standard strategy does, scrolls the
    window to (0, 0) and installs exactly one more closure; the touch
    handlers never install or remove one.  Called on any later page on
    which the same closures are installed, whatever else has become of it,
    the closure it returned puts back the padding and the scroll offsets
    saved at activation and removes that one closure and no other. *)
Theorem touch_strategy_round_trip :
  forall d d' : Dom,
    keysFresh d ->
    acceptsPadding (paddingRight d) = true ->
    let d1 := fst (safariMobilePreventScroll d) in
    let r := snd (safariMobilePreventScroll d) in
    keysOf d' = keysOf d1 ->
    layoutOf d1
    = ((if (0 <=? innerWidth d - clientWidth d)%Z
        then css_px (innerWidth d - clientWidth d) else paddingRight d), 0, 0)
    /\ keysOf d1 = keysOf d ++ [nextKey d]
    /\ (forall ty e, keysOf (fst (dispatchTouch ty e d')) = keysOf d')
    /\ layoutOf (runRestore r d') = layoutOf d
    /\ keysOf (runRestore r d') = keysOf d
    /\ (touchListeners d = [] -> touchListeners (runRestore r d') = []).
Proof.
  intros d d' Fresh A d1 r K.
  assert (P : forall v d0, touchListeners (assign_paddingRight v d0)
                           = touchListeners d0
                           /\ nextKey (assign_paddingRight v d0) = nextKey d0
                           /\ scrollX (assign_paddingRight v d0) = scrollX d0
                           /\ scrollY (assign_paddingRight v d0) = scrollY d0).
  { intros v d0. unfold assign_paddingRight.
    destruct (acceptsPadding v); repeat split. }
  assert (K1 : keysOf d1 = keysOf d ++ [nextKey d]).
  { unfold d1, keysOf, safariMobilePreventScroll. simpl. rewrite map_app.
    destruct (P (css_px (innerWidth d - clientWidth d)) d) as (P1 & P2 & _).
    rewrite P1, P2. reflexivity. }
  assert (K2 : keysOf (runRestore r d') = keysOf d).
  { unfold r, keysOf. simpl. rewrite filter_keys.
    destruct (P (paddingRight d) d') as (P1 & _). rewrite P1.
    destruct (P (css_px (innerWidth d - clientWidth d)) d) as (_ & Q2 & _).
    rewrite Q2. fold (keysOf d'). rewrite K, K1. apply filter_fresh.
    unfold keysOf. clear -Fresh. unfold keysFresh in Fresh.
    induction Fresh; simpl; constructor; assumption. }
  split; [|split; [exact K1|split; [|split; [|split; [exact K2|]]]]].
  - unfold d1, layoutOf, safariMobilePreventScroll, assign_paddingRight. simpl.
    destruct (0 <=? innerWidth d - clientWidth d)%Z; reflexivity.
  - intros ty e. apply dispatchTouch_keeps.
  - unfold r, safariMobilePreventScroll. cbn [snd runRestore].
    unfold layoutOf, assign_paddingRight. rewrite A. reflexivity.
  - intros E. unfold keysOf in K2. rewrite E in K2.
    apply map_eq_nil in K2. exact K2.
Qed.

Lemma touch_strategy_round_trip_witness :
  let d1 := fst (safariMobilePreventScroll Samples.page) in
  let d' := fst (dispatchTouch touchend
                   {| target := Samples.textInput; pageY := 180 |}
                   (scrollTo 0 35 d1)) in
  layoutOf (runRestore (snd (safariMobilePreventScroll Samples.page)) d')
  = layoutOf Samples.page
  /\ touchListeners
       (runRestore (snd (safariMobilePreventScroll Samples.page)) d') = [].
Proof.
  cbv zeta.
  destruct (touch_strategy_round_trip Samples.page
              (fst (dispatchTouch touchend
                      {| target := Samples.textInput; pageY := 180 |}
                      (scrollTo 0 35 (fst (safariMobilePreventScroll Samples.page)))))
              (Forall_nil _) eq_refl eq_refl)
    as (_ & _ & _ & L & _ & T).
  split; [exact L | apply T; reflexivity].
Defined.

End StrategyFacts.

(** ** The hook across mounts, renders and unmounts *)

Section HookFacts.

Import PreventScroll Hooks.

Ltac count_trace :=
  unfold restoreRuns, applied; simpl;
  rewrite ?filter_app, ?flat_map_app, ?length_app; simpl;
  rewrite ?app_nil_r, ?Nat.add_0_r, ?Nat.add_1_r.

Lemma effect_held (nav : option Navigator) (isDisabled : bool) (n : nat)
      (w : World) :
  held n w ->
  held (if isDisabled then n else S n) (fst (effect nav isDisabled w))
  /\ snd (effect nav isDisabled w) = negb isDisabled.
Proof.
  intros (C & R & T). destruct isDisabled; [repeat split; assumption|].
  destruct n as [|n].
  - rewrite effect_first by exact C. simpl. split; [|reflexivity].
    unfold held. simpl. split; [reflexivity|]. split; [discriminate|].
    revert T. destruct w as [c r d t]. count_trace. lia.
  - rewrite effect_later by lia. simpl. split; [|reflexivity].
    unfold held. simpl. split; [lia|]. split; [intros _; apply R; lia|].
    exact T.
Qed.

Lemma cleanup_held (n : nat) (w : World) :
  held (S n) w -> exists w', cleanup w = Some w' /\ held n w'.
Proof.
  intros (C & R & T). destruct n as [|n].
  - destruct (restore w) as [r|] eqn:E; [|exfalso; apply R; [lia|reflexivity]].
    rewrite (cleanup_last w r C E). eexists. split; [reflexivity|].
    unfold held. simpl. split; [reflexivity|]. split; [lia|].
    revert T. destruct w as [c r0 d t]. count_trace. lia.
  - rewrite cleanup_earlier by lia. eexists. split; [reflexivity|].
    unfold held. simpl. split; [lia|]. split; [intros _; apply R; lia|].
    exact T.
Qed.

Lemma enabled_app (l : list Instance) (i : Instance) :
  enabled (l ++ [i]) = enabled l + (if hasCleanup i then 1 else 0).
Proof.
  unfold enabled. rewrite filter_app, length_app. simpl.
  destruct (hasCleanup i); reflexivity.
Qed.

Lemma enabled_remove (k : nat) (l : list Instance) (i : Instance) :
  nth_error l k = Some i ->
  enabled l = (if hasCleanup i then 1 else 0) + enabled (removeNth k l).
Proof.
  revert k. induction l as [|h t IH]; intros [|k] H; try discriminate.
  - injection H as ->. unfold enabled. simpl. destruct (hasCleanup i); reflexivity.
  - simpl in H. specialize (IH k H). unfold enabled in *. simpl.
    destruct (hasCleanup h); simpl; lia.
Qed.

Lemma enabled_replace (k : nat) (l : list Instance) (i x : Instance) :
  nth_error l k = Some i ->
  enabled (replaceNth k x l)
  = (if hasCleanup x then 1 else 0) + enabled (removeNth k l).
Proof.
  revert k. induction l as [|h t IH]; intros [|k] H; try discriminate.
  - unfold enabled. simpl. destruct (hasCleanup x); reflexivity.
  - simpl in H. specialize (IH k H). unfold enabled in *. simpl.
    destruct (hasCleanup h); simpl; lia.
Qed.

Lemma Forall_removeNth {A : Type} (P : A -> Prop) (k : nat) (l : list A) :
  Forall P l -> Forall P (removeNth k l).
Proof.
  intros F. revert k. induction F as [|h t H F IH]; intros [|k]; simpl; auto.
Qed.

Lemma Forall_replaceNth {A : Type} (P : A -> Prop) (k : nat) (x : A)
      (l : list A) :
  P x -> Forall P l -> Forall P (replaceNth k x l).
Proof.
  intros X F. revert k. induction F as [|h t H F IH]; intros [|k]; simpl; auto.
Qed.

Lemma runCleanup_held (k : nat) (l : list Instance) (i : Instance) (w : World) :
  nth_error l k = Some i -> held (enabled l) w ->
  exists w', runCleanup i w = Some w' /\ held (enabled (removeNth k l)) w'.
Proof.
  intros N H. rewrite (enabled_remove k l i N) in H. unfold runCleanup.
  destruct (hasCleanup i); [apply cleanup_held, H|].
  exists w. split; [reflexivity | exact H].
Qed.

Lemma lifecycle_consistent (ev : Lifecycle) (t : Tree) :
  consistent t -> exists t', lifecycle ev t = Some t' /\ consistent t'.
Proof.
  intros [H F]. destruct ev as [nav dis | k nav dis | k]; simpl.
  - unfold runEffect.
    destruct (effect_held nav dis _ _ H) as [H1 S1].
    destruct (effect nav dis (world t)) as [w c]. simpl in *. subst c.
    eexists. split; [reflexivity|]. split; simpl.
    + rewrite enabled_app. simpl. destruct dis; simpl;
        [rewrite Nat.add_0_r | rewrite Nat.add_1_r]; exact H1.
    + apply Forall_app. split; [exact F|]. constructor; [reflexivity|constructor].
  - destruct (nth_error (instances t) k) as [i|] eqn:N;
      [|exists t; split; [reflexivity | split; assumption]].
    unfold rerender. destruct (Bool.eqb dis (dep i)) eqn:E.
    + eexists. split; [reflexivity|]. split; simpl.
      * rewrite (enabled_replace k _ i i N), <- (enabled_remove k _ i N). exact H.
      * apply Forall_replaceNth; [|exact F].
        rewrite Forall_forall in F. apply F. eapply nth_error_In, N.
    + destruct (runCleanup_held k _ i _ N H) as (w1 & C1 & H1). rewrite C1.
      unfold runEffect.
      destruct (effect_held nav dis _ _ H1) as [H2 S2].
      destruct (effect nav dis w1) as [w2 c]. simpl in *. subst c.
      eexists. split; [reflexivity|]. split; simpl.
      * rewrite (enabled_replace k _ i _ N). simpl.
        destruct dis; simpl; exact H2.
      * apply Forall_replaceNth; [reflexivity | exact F].
  - destruct (nth_error (instances t) k) as [i|] eqn:N;
      [|exists t; split; [reflexivity | split; assumption]].
    destruct (runCleanup_held k _ i _ N H) as (w1 & C1 & H1). rewrite C1.
    eexists. split; [reflexivity|]. split; simpl;
      [exact H1 | apply Forall_removeNth, F].
Qed.

Lemma lifecycles_consistent (evs : list Lifecycle) (t : Tree) :
  consistent t -> exists t', lifecycles evs t = Some t' /\ consistent t'.
Proof.
  revert t. induction evs as [|ev evs IH]; intros t C;
    [exists t; split; [reflexivity | exact C]|].
  simpl. destruct (lifecycle_consistent ev t C) as (t1 & L & C1).
  rewrite L. apply IH, C1.
Qed.

Lemma enabled_positive (l : list Instance) :
  Forall (fun i => hasCleanup i = negb (dep i)) l ->
  (0 < enabled l <-> exists i, In i l /\ dep i = false).
Proof.
  intros F. unfold enabled. rewrite Forall_forall in F. split.
  - intros P. destruct (filter hasCleanup l) as [|i rest] eqn:E;
      [simpl in P; lia|].
    assert (I : In i (filter hasCleanup l)) by (rewrite E; left; reflexivity).
    apply filter_In in I. destruct I as [I C]. exists i. split; [exact I|].
    rewrite (F i I) in C. destruct (dep i); [discriminate | reflexivity].
  - intros (i & I & D).
    assert (J : In i (filter hasCleanup l)).
    { apply filter_In. split; [exact I|]. rewrite (F i I), D. reflexivity. }
    destruct (filter hasCleanup l); [contradiction | simpl; lia].
Qed.

(** X7. Any number of components use the hook, mounting, re-rendering with
    a new [isDisabled] and unmounting in any order.  From the module as
    loaded, no cleanup ever throws, and at every moment: the counter is the
    number of mounted instances whose [isDisabled] is false (so it is never
    negative), the lock is ACTIVE exactly when there is such an instance, and
    every strategy applied so far has been restored exactly once, except the
    one in force while the lock is ACTIVE. *)
Theorem hook_counter_invariant :
  forall (w0 : World) (evs : list Lifecycle),
    preventScrollCount w0 = 0%Z -> trace w0 = [] ->
    exists t : Tree,
      lifecycles evs {| instances := []; world := w0 |} = Some t
      /\ preventScrollCount (world t)
         = Z.of_nat (List.length (filter (fun i => negb (dep i)) (instances t)))
      /\ (lockState (world t) = ACTIVE
          <-> exists i, In i (instances t) /\ dep i = false)
      /\ List.length (applied (world t))
         = restoreRuns (world t)
           + match lockState (world t) with ACTIVE => 1 | INACTIVE => 0 end.
Proof.
  intros w0 evs Z T.
  assert (C0 : consistent {| instances := []; world := w0 |}).
  { split; [|constructor]. unfold held, applied, restoreRuns. simpl.
    rewrite Z, T. repeat split. intros P. inversion P. }
  destruct (lifecycles_consistent evs _ C0) as (t & L & (C & R & A) & F).
  exists t. split; [exact L|].
  assert (E : filter (fun i => negb (dep i)) (instances t)
              = filter hasCleanup (instances t)).
  { apply filter_ext_in. intros i I. rewrite Forall_forall in F.
    symmetry. apply F, I. }
  assert (S : lockState (world t)
              = if Nat.eqb (enabled (instances t)) 0 then INACTIVE else ACTIVE).
  { unfold lockState. rewrite C.
    destruct (Nat.eqb_spec (enabled (instances t)) 0) as [N|N].
    - rewrite N. reflexivity.
    - destruct (Z.eqb_spec (Z.of_nat (enabled (instances t))) 0); [lia|reflexivity]. }
  split; [rewrite E; exact C|]. split.
  - rewrite <- (enabled_positive _ F), S.
    destruct (Nat.eqb_spec (enabled (instances t)) 0) as [N|N]; split;
      try discriminate; try reflexivity; intros; lia.
  - rewrite A, S. destruct (Nat.eqb (enabled (instances t)) 0); reflexivity.
Qed.

Lemma hook_counter_invariant_witness :
  exists t : Tree,
    lifecycles [Mount Samples.iPhone true; Mount Samples.iPhone false;
                Rerender 0 Samples.iPhone false; Unmount 1;
                Rerender 0 Samples.iPhone true]
               {| instances := []; world := Samples.loaded |} = Some t
    /\ preventScrollCount (world t)
       = Z.of_nat (List.length (filter (fun i => negb (dep i)) (instances t))).
Proof.
  destruct (hook_counter_invariant Samples.loaded
              [Mount Samples.iPhone true; Mount Samples.iPhone false;
               Rerender 0 Samples.iPhone false; Unmount 1;
               Rerender 0 Samples.iPhone true] eq_refl eq_refl)
    as (t & L & C & _).
  exists t. split; assumption.
Defined.

End HookFacts.

(** ** The sheet and its lock together *)

Section AppFacts.

Import BottomSheet PreventScroll Hooks App Layout.
Local Open Scope float_scope.

Lemma restore_geometry (s : Strategy) (d0 : Dom) :
  acceptsPadding (paddingRight d0) = true ->
  geometryOf (runRestore (snd (applyStrategy s d0)) (fst (applyStrategy s d0)))
  = geometryOf d0.
Proof.
  intros A.
  destruct s; unfold applyStrategy, standardPreventScroll,
    safariMobilePreventScroll; cbn [fst snd runRestore];
    unfold geometryOf, layoutOf, assign_paddingRight; rewrite A;
    destruct (acceptsPadding (css_px (innerWidth d0 - clientWidth d0)));
    reflexivity.
Qed.

Lemma applied_padding (s : Strategy) (d0 : Dom) :
  paddingRight (fst (applyStrategy s d0))
  = if (0 <=? innerWidth d0 - clientWidth d0)%Z
    then css_px (innerWidth d0 - clientWidth d0) else paddingRight d0.
Proof.
  destruct s; unfold applyStrategy, standardPreventScroll,
    safariMobilePreventScroll, assign_paddingRight; simpl;
    destruct (0 <=? innerWidth d0 - clientWidth d0)%Z; reflexivity.
Qed.

Lemma appDispatch_follows (nav : option Navigator) (w0 : World) (e : Event)
      (a : App) :
  acceptsPadding (paddingRight (dom w0)) = true ->
  lockFollowsDrag nav w0 a ->
  exists a', appDispatch nav e a = Some a'
             /\ sheet a' = dispatch e (sheet a)
             /\ lockFollowsDrag nav w0 a'.
Proof.
  unfold lockFollowsDrag, appDispatch. intros V H.
  destruct (isDragging (state (sheet a))) eqn:D0;
    destruct (isDragging (state (dispatch e (sheet a)))) eqn:D1.
  - destruct H as (L & C & d0 & G & D & R). rewrite L. simpl.
    eexists. split; [reflexivity|]. split; [reflexivity|]. simpl. rewrite D1.
    split; [reflexivity|]. split; [exact C|]. exists d0.
    repeat split; assumption.
  - destruct H as (L & C & d0 & G & D & R). rewrite L.
    unfold rerender, runCleanup. simpl.
    rewrite (cleanup_last _ _ C R). simpl.
    eexists. split; [reflexivity|]. split; [reflexivity|]. simpl. rewrite D1.
    repeat split. simpl. rewrite D, restore_geometry; [exact G|].
    unfold geometryOf, layoutOf in G. congruence.
  - destruct H as (L & C & G). rewrite L.
    unfold rerender, runCleanup, runEffect.
    cbn [dep hasCleanup negb Bool.eqb].
    rewrite (effect_first nav _ C).
    eexists. split; [reflexivity|]. split; [reflexivity|]. simpl. rewrite D1.
    repeat split. exists (dom (page a)). repeat split. exact G.
  - destruct H as (L & C & G). rewrite L. simpl.
    eexists. split; [reflexivity|]. split; [reflexivity|]. simpl. rewrite D1.
    repeat split; try reflexivity; assumption.
Qed.

Lemma appRun_follows (nav : option Navigator) (w0 : World) (evs : list Event)
      (a : App) :
  acceptsPadding (paddingRight (dom w0)) = true ->
  lockFollowsDrag nav w0 a ->
  exists a', appRun nav evs a = Some a'
             /\ sheet a' = run evs (sheet a)
             /\ lockFollowsDrag nav w0 a'.
Proof.
  intros V. revert a. induction evs as [|e evs IH]; intros a H;
    [exists a; repeat split; exact H|].
  destruct (appDispatch_follows nav w0 e a V H) as (a1 & D & S & H1).
  simpl. rewrite D. destruct (IH a1 H1) as (a2 & R & S2 & H2).
  exists a2. split; [exact R|]. split; [|exact H2].
  rewrite S2, S. reflexivity.
Qed.

(** X8. [BottomSheet] passes [isDisabled: !isDragging] to the hook.  With
    the sheet as the only user of the lock, from mounting on and for any
    pointer events: no cleanup throws; the sheet behaves as it does on its
    own; the counter is 1 while a drag is active and 0 otherwise; while
    dragging the right padding is [innerWidth - clientWidth] px when that is
    not negative, and the padding of the page at mount otherwise; and
    whenever no drag is active the padding and the scroll offsets are those
    the page had at mount. *)
Theorem lock_follows_drag :
  forall (rect : option float) (nav : option Navigator) (w0 : World)
         (evs : list Event),
    preventScrollCount w0 = 0%Z ->
    acceptsPadding (paddingRight (dom w0)) = true ->
    exists a : App,
      appRun nav evs (appMount rect nav w0) = Some a
      /\ sheet a = run evs (mount rect)
      /\ preventScrollCount (page a)
         = (if isDragging (state (sheet a)) then 1 else 0)%Z
      /\ (isDragging (state (sheet a)) = true ->
          paddingRight (dom (page a))
          = if (0 <=? innerWidth (dom w0) - clientWidth (dom w0))%Z
            then css_px (innerWidth (dom w0) - clientWidth (dom w0))
            else paddingRight (dom w0))
      /\ (isDragging (state (sheet a)) = false ->
          layoutOf (dom (page a)) = layoutOf (dom w0)).
Proof.
  intros rect nav w0 evs Z V.
  assert (H0 : lockFollowsDrag nav w0 (appMount rect nav w0)).
  { unfold lockFollowsDrag, appMount. simpl. repeat split. exact Z. }
  destruct (appRun_follows nav w0 evs _ V H0) as (a & R & S & H).
  exists a. split; [exact R|]. split; [exact S|].
  unfold lockFollowsDrag in H.
  destruct (isDragging (state (sheet a))).
  - destruct H as (_ & C & d0 & G & D & _). split; [exact C|].
    split; [|discriminate]. intros _. rewrite D, applied_padding.
    unfold geometryOf, layoutOf in G.
    injection G as G1 _ _ G4 G5. rewrite G1, G4, G5. reflexivity.
  - destruct H as (_ & C & G). split; [exact C|].
    split; [discriminate|]. intros _. unfold geometryOf in G. congruence.
Qed.

Lemma lock_follows_drag_witness :
  exists a : App,
    appRun Samples.iPhone
           [PointerDown 900; PointerMove 700; PointerUp 1000]
           (appMount (Some 24) Samples.iPhone Samples.loaded) = Some a
    /\ sheet a = run [PointerDown 900; PointerMove 700; PointerUp 1000]
                     (mount (Some 24))
    /\ preventScrollCount (page a)
       = (if isDragging (state (sheet a)) then 1 else 0)%Z.
Proof.
  destruct (lock_follows_drag (Some 24) Samples.iPhone Samples.loaded
              [PointerDown 900; PointerMove 700; PointerUp 1000]
              eq_refl eq_refl)
    as (a & R & S & C & _).
  exists a. repeat split; assumption.
Defined.

End AppFacts.

(** ** More on the touch handlers *)

Section TouchFacts.

Import Js PreventScroll.
Local Open Scope float_scope.

Lemma same_refl (t : Element) : same t t = true.
Proof. apply Nat.eqb_refl. Qed.

Lemma onTouchEnd_idle (e : TouchEvent) (d : Dom) :
  isInput (target e) && negb (sameOpt (target e) (activeElement d)) = false ->
  onTouchEnd e d = (d, false).
Proof. intros H. unfold onTouchEnd. rewrite H. reflexivity. Qed.

Lemma onTouchEnd_twice (e : TouchEvent) (d : Dom) :
  canFocus d (id (target e)) = true ->
  onTouchEnd e (fst (onTouchEnd e d)) = (fst (onTouchEnd e d), false).
Proof.
  intros F. apply onTouchEnd_idle. unfold onTouchEnd, focus.
  destruct (isInput (target e) && negb (sameOpt (target e) (activeElement d)))
    eqn:C; simpl; [|exact C].
  rewrite F. simpl. rewrite same_refl. apply andb_false_r.
Qed.

Lemma dispatchTo_touchend_idle (e : TouchEvent) (installed : list (nat * Touch))
      (d : Dom) :
  onTouchEnd e d = (d, false) ->
  dispatchTo touchend e installed d = (installed, d, false).
Proof.
  intros H. induction installed as [|[k st] rest IH]; [reflexivity|].
  simpl. rewrite H, IH. reflexivity.
Qed.

(** X9. For a target that can take focus the workaround runs once per tap:
    a second touch-end on it finds it focused and does nothing, and however
    many closures are installed on the document, one touch-end leaves the
    page as a single run of [onTouchEnd] does and is prevented exactly when
    that run prevents it.  For a text-accepting target that cannot take
    focus, [focus()] changes nothing, and the next touch-end on it is
    prevented again. *)
Theorem touch_end_runs_once :
  (forall (e : TouchEvent) (d : Dom),
      canFocus d (id (target e)) = true ->
      onTouchEnd e (fst (onTouchEnd e d)) = (fst (onTouchEnd e d), false))
  /\ (forall (e : TouchEvent) (d : Dom),
         canFocus d (id (target e)) = true ->
         touchListeners d <> [] ->
         dispatchTouch touchend e d = onTouchEnd e d)
  /\ (forall (e : TouchEvent) (d : Dom),
         canFocus d (id (target e)) = false ->
         isInput (target e) = true ->
         sameOpt (target e) (activeElement d) = false ->
         snd (onTouchEnd e d) = true
         /\ activeElement (fst (onTouchEnd e d)) = activeElement d
         /\ snd (onTouchEnd e (fst (onTouchEnd e d))) = true).
Proof.
  split; [exact onTouchEnd_twice|]. split.
  - intros e d F N. unfold dispatchTouch.
    destruct (touchListeners d) as [|[k st] rest] eqn:L; [contradiction|].
    simpl. pose proof (onTouchEnd_twice e d F) as T.
    destruct (onTouchEnd e d) as [d1 p] eqn:E. simpl in T.
    rewrite (dispatchTo_touchend_idle e rest d1 T). rewrite orb_false_r.
    f_equal. rewrite <- L.
    assert (K : touchListeners d1 = touchListeners d /\ nextKey d1 = nextKey d).
    { revert E. unfold onTouchEnd, focus. destruct (_ && _); intros E;
        injection E as <- _; [|split; reflexivity].
      simpl. rewrite F. split; reflexivity. }
    destruct K as [K1 K2]. rewrite <- K1. unfold set_touchListeners.
    destruct d1; reflexivity.
  - intros e d F I A. unfold onTouchEnd, focus. rewrite I, A. simpl.
    rewrite F. simpl. rewrite ?I, ?A. repeat split.
Qed.

Lemma touch_end_runs_once_witness :
  dispatchTouch touchend {| target := Samples.textInput; pageY := 300 |}
    (fst (safariMobilePreventScroll
            (fst (safariMobilePreventScroll Samples.page))))
  = onTouchEnd {| target := Samples.textInput; pageY := 300 |}
      (fst (safariMobilePreventScroll
              (fst (safariMobilePreventScroll Samples.page))))
  /\ snd (onTouchEnd {| target := Samples.disabledInput; pageY := 300 |}
            (fst (onTouchEnd {| target := Samples.disabledInput; pageY := 300 |}
                    Samples.page))) = true.
Proof.
  split.
  - apply (proj1 (proj2 touch_end_runs_once)); [reflexivity | discriminate].
  - apply (proj2 (proj2 touch_end_runs_once)
             {| target := Samples.disabledInput; pageY := 300 |} Samples.page);
      reflexivity.
Defined.

(** X10. In a nested scrollable region that overflows, a touch-move is
    prevented at the top when the finger moves down and at the bottom when
    it moves up; it is not prevented when the finger moves up and the
    region is not at its bottom, nor when the finger has not moved
    vertically; and in each of these cases the position is remembered for
    the next move. *)
Theorem touch_move_extremities :
  forall (d : Dom) (e : TouchEvent) (st : Touch) (s : Element),
    scrollable st = Some s ->
    isDocumentRoot d s = false ->
    let top := scrollTop (metrics d (id s)) in
    let bottom := scrollHeight (metrics d (id s))
                  - clientHeight (metrics d (id s)) in
    (bottom =? 0) = false ->
    lastY (fst (onTouchMove d e st)) = pageY e
    /\ ((top <=? 0) = true -> (lastY st <? pageY e) = true ->
        snd (onTouchMove d e st) = true)
    /\ ((bottom <=? top) = true -> (pageY e <? lastY st) = true ->
        snd (onTouchMove d e st) = true)
    /\ ((top <? bottom) = true -> (pageY e <? lastY st) = true ->
        snd (onTouchMove d e st) = false)
    /\ (pageY e = lastY st -> snd (onTouchMove d e st) = false).
Proof.
  intros d e st s S R top bottom B.
  unfold onTouchMove, isDocumentRoot in *. rewrite S, R. fold top. fold bottom.
  rewrite B. simpl. unfold ge, gt.
  split; [reflexivity|]. split; [|split; [|split]].
  - intros -> ->. reflexivity.
  - intros -> ->. apply orb_true_r.
  - intros T M. rewrite (ltb_asym _ _ M), (ltb_leb_flip _ _ T).
    rewrite andb_false_r. reflexivity.
  - intros ->. rewrite ltb_irrefl, !andb_false_r. reflexivity.
Qed.

Lemma touch_move_extremities_witness :
  snd (onTouchMove Samples.page {| target := Samples.item; pageY := 180 |}
         {| scrollable := Some Samples.scroller; lastY := 200 |}) = false.
Proof.
  apply (proj1 (proj2 (proj2 (proj2
           (touch_move_extremities Samples.page
              {| target := Samples.item; pageY := 180 |}
              {| scrollable := Some Samples.scroller; lastY := 200 |}
              Samples.scroller eq_refl eq_refl eq_refl)))));
    reflexivity.
Defined.

(** X11. The early return of [onTouchStart] is never taken in a document
    whose body is not the document element itself: the start position is
    always recorded, together with the scroll parent of the target. *)
Theorem touch_start_always_tracks :
  forall (d : Dom) (e : TouchEvent) (st : Touch),
    sameOpt (documentElement d) (body d) = false ->
    onTouchStart d e st
    = {| scrollable := Some (getScrollParent d (target e));
         lastY := pageY e |}.
Proof.
  intros d e st N. unfold onTouchStart.
  set (s := getScrollParent d (target e)).
  destruct (same s (documentElement d)) eqn:A; [|reflexivity].
  destruct (sameOpt s (body d)) eqn:B; [|rewrite andb_false_r; reflexivity].
  exfalso. unfold sameOpt, same in *. destruct (body d) as [b|]; [|discriminate].
  apply Nat.eqb_eq in A, B. rewrite <- A, B, Nat.eqb_refl in N. discriminate.
Qed.

Lemma touch_start_always_tracks_witness :
  onTouchStart Samples.page {| target := Samples.div; pageY := 200 |}
    {| scrollable := None; lastY := 0 |}
  = {| scrollable := Some Samples.html; lastY := 200 |}.
Proof.
  apply (touch_start_always_tracks Samples.page
           {| target := Samples.div; pageY := 200 |}
           {| scrollable := None; lastY := 0 |}).
  reflexivity.
Defined.

End TouchFacts.

(** ** The two variants of the sheet *)

Section VariantFacts.

Local Open Scope float_scope.

Lemma mouse_dispatch_agrees (e : MouseSheet.Event) (m : MouseSheet.Component)
      (p : BottomSheet.Component) :
  MouseSheet.agrees m p ->
  MouseSheet.agrees (MouseSheet.dispatch e m)
                    (BottomSheet.dispatch (MouseSheet.asPointer e) p).
Proof.
  destruct m as [ms ml [md mst]], p as [ps pl [pd pst]].
  unfold MouseSheet.agrees. simpl. intros (-> & -> & -> & H).
  destruct e as [y|y|wH]; simpl.
  - repeat split. exact H.
  - unfold MouseSheet.handleOnMove, BottomSheet.handleOnMove.
    destruct (negb (BottomSheet.isDragging pl)); simpl; repeat split. exact H.
  - repeat split.
Qed.

(** X12. The mouse-event variant and the pointer-event variant of
    [BottomSheet] go through the same states: fed the same sequence of
    events from mounting on, they have the same [isDragging] and
    [blockHeight], the same registered render, the same drag state and the
    same rendered height; they differ only in how they write the
    transition. *)
Theorem variants_agree :
  forall (rect : option float) (evs : list MouseSheet.Event),
    let m := MouseSheet.run evs (MouseSheet.mount rect) in
    let p := BottomSheet.run (map MouseSheet.asPointer evs)
                             (BottomSheet.mount rect) in
    MouseSheet.state m = BottomSheet.state p
    /\ MouseSheet.listeners m = BottomSheet.listeners p
    /\ MouseSheet.dragState (MouseSheet.refs m)
       = BottomSheet.dragState (BottomSheet.refs p)
    /\ MouseSheet.height (MouseSheet.style (MouseSheet.refs m))
       = BottomSheet.height (BottomSheet.style (BottomSheet.refs p)).
Proof.
  intros rect evs.
  assert (G : forall evs m p,
             MouseSheet.agrees m p ->
             MouseSheet.agrees (MouseSheet.run evs m)
               (BottomSheet.run (map MouseSheet.asPointer evs) p)).
  { clear. induction evs as [|e evs IH]; intros m p A; [exact A|].
    apply (IH (MouseSheet.dispatch e m)
              (BottomSheet.dispatch (MouseSheet.asPointer e) p)).
    apply mouse_dispatch_agrees, A. }
  apply G. repeat split.
Qed.

End VariantFacts.

(** ** At rest, and outside the zones *)

Section RestFacts.

Import Js BottomSheet.
Local Open Scope float_scope.

(** X13. At rest the element shows the committed height: in every state
    the mounted component can reach with no drag active, the height written
    to the element is [blockHeight], or nothing has been released yet and the
    element still has its initial 24px while [blockHeight] is the height
    measured at mount. *)
Theorem rest_height_is_committed :
  forall (rect : option float) (evs : list Event),
    let c := run evs (mount rect) in
    isDragging (state c) = false ->
    height (style (refs c)) = blockHeight (state c)
    \/ (height (style (refs c)) = 24
        /\ blockHeight (state c) = orElse rect 0).
Proof.
  intros rect evs c.
  enough (H : listeners_current c
              /\ (isDragging (state c) = false ->
                  height (style (refs c)) = blockHeight (state c)
                  \/ (height (style (refs c)) = 24
                      /\ blockHeight (state c) = orElse rect 0)))
    by apply H.
  unfold c. apply (run_invariant
    (fun c => listeners_current c
              /\ (isDragging (state c) = false ->
                  height (style (refs c)) = blockHeight (state c)
                  \/ (height (style (refs c)) = 24
                      /\ blockHeight (state c) = orElse rect 0)))).
  - intros e c0 [L R]. split; [apply listeners_current_dispatch, L|].
    destruct e as [y|y|wH].
    + simpl. discriminate.
    + intros D. assert (D0 : isDragging (state c0) = false).
      { revert D. destruct c0 as [[sd sh] l m]. simpl. destruct sd; auto. }
      rewrite dispatch_PointerMove_idle; [exact (R D0)|].
      destruct L as [L _]. congruence.
    + intros _. left. reflexivity.
  - split; [apply listeners_current_mount|]. intros _. right. split; reflexivity.
Qed.

Lemma rest_height_is_committed_witness :
  let c := run [PointerDown 900; PointerMove 700; PointerUp 1000; PointerMove 10]
               (mount (Some 24)) in
  height (style (refs c)) = blockHeight (state c)
  \/ (height (style (refs c)) = 24 /\ blockHeight (state c) = orElse (Some 24) 0).
Proof.
  apply (rest_height_is_committed (Some 24)
           [PointerDown 900; PointerMove 700; PointerUp 1000; PointerMove 10]).
  reflexivity.
Defined.

Lemma SFcompare_le_lt_trans a b c :
  SFleb a b = true -> SFltb b c = true -> SFleb c a = false.
Proof.
  unfold SFleb, SFltb.
  destruct a as [sa|sa| |sa ma ea], b as [sb|sb| |sb mb eb],
           c as [sc|sc| |sc mc ec]; simpl;
    try discriminate; try reflexivity;
    repeat match goal with s : bool |- _ => destruct s end; simpl;
    try discriminate; try reflexivity;
    change (Pos.compare_cont Eq ?x ?y) with (x ?= y)%positive;
    repeat match goal with
           | |- context [(?x ?= ?y)%Z] => destruct (Z.compare_spec x y)
           | |- context [(?x ?= ?y)%positive] => destruct (Pos.compare_spec x y)
           end; simpl; try discriminate; try reflexivity; try lia.
Qed.

Lemma SFcompare_lt_le_trans a b c :
  SFltb a b = true -> SFleb b c = true -> SFleb c a = false.
Proof.
  unfold SFleb, SFltb.
  destruct a as [sa|sa| |sa ma ea], b as [sb|sb| |sb mb eb],
           c as [sc|sc| |sc mc ec]; simpl;
    try discriminate; try reflexivity;
    repeat match goal with s : bool |- _ => destruct s end; simpl;
    try discriminate; try reflexivity;
    change (Pos.compare_cont Eq ?x ?y) with (x ?= y)%positive;
    repeat match goal with
           | |- context [(?x ?= ?y)%Z] => destruct (Z.compare_spec x y)
           | |- context [(?x ?= ?y)%positive] => destruct (Pos.compare_spec x y)
           end; simpl; try discriminate; try reflexivity; try lia.
Qed.

Lemma leb_ltb_trans x y z :
  (x <=? y) = true -> (y <? z) = true -> (z <=? x) = false.
Proof. rewrite !leb_spec, ltb_spec. apply SFcompare_le_lt_trans. Qed.

Lemma ltb_leb_trans x y z :
  (x <? y) = true -> (y <=? z) = true -> (z <=? x) = false.
Proof. rewrite !leb_spec, ltb_spec. apply SFcompare_lt_le_trans. Qed.

(** X14. Outside the two zones a release closes the sheet, whatever the
    direction of the gesture: when the zone bounds are in order
    ([0.05 * wH <= 0.45 * wH <= 0.9 * wH], any non-negative window height)
    and the candidate height is below [0.05 * wH] or above [0.9 * wH],
    [animateTo] returns 0 and 24 is committed.  So a sheet dragged beyond
    nine tenths of the window closes when it is let go. *)
Theorem release_outside_zones_closes :
  forall (wH : float) (r : Render) (m : Refs),
    (wH * 0.05 <=? wH * 0.45) = true ->
    (wH * 0.45 <=? wH * 0.9) = true ->
    (blockHeight r - drag (dragState m) <? wH * 0.05) = true
    \/ (wH * 0.9 <? blockHeight r - drag (dragState m)) = true ->
    animateTo wH r (dragState m) = 0
    /\ setBlockHeight (handleMouseUp wH r m) = Some 24.
Proof.
  intros wH r m L1 L2 O.
  assert (A : animateTo wH r (dragState m) = 0).
  { unfold animateTo, between, ge.
    set (h := blockHeight r - drag (dragState m)) in *.
    destruct O as [Lo|Hi].
    - rewrite (ltb_leb_flip _ _ Lo), (ltb_leb_trans _ _ _ Lo L1). reflexivity.
    - rewrite (ltb_leb_flip _ _ Hi), (leb_ltb_trans _ _ _ L2 Hi).
      rewrite !andb_false_r. reflexivity. }
  split; [exact A|]. unfold handleMouseUp. simpl. rewrite A. reflexivity.
Qed.

Lemma release_outside_zones_closes_witness :
  animateTo 1000 {| isDragging := true; blockHeight := 500 |}
            (dragState {| dragState := {| last := 50; drag := -450; from := 500 |};
                          style := {| bsDuration := "0s"; height := 950 |} |})
  = 0.
Proof.
  apply (release_outside_zones_closes 1000
           {| isDragging := true; blockHeight := 500 |}
           {| dragState := {| last := 50; drag := -450; from := 500 |};
              style := {| bsDuration := "0s"; height := 950 |} |});
    [reflexivity | reflexivity | right; reflexivity].
Defined.

End RestFacts.
